(** * System-Wycen-AI-ML, Angular front end: pricing preview, score classes,
      offer statistics and the stored session

    A shallow embedding of four pieces of the front end:

    - [CalculatorComponent.calculateLocalEstimate], [getScoreClass] and
      [calculate] (src/frontend/src/app/calculator/calculator.component.ts);
    - [OffersListComponent.calculateStats] and [getScoreColor]
      (offers-list.component.ts);
    - [AuthService.getStoredUser] (auth.service.ts).

    A JavaScript [number] is an IEEE 754 binary64 value: it is modelled by the
    kernel's primitive [float], whose operations are the binary64 ones, so the
    definitions below evaluate to the very doubles the browser computes. *)

From Stdlib Require Import ZArith Bool List Lia.
From Stdlib Require Import Floats.
From stdpp Require Import base option list strings gmap.

Set Warnings "-inexact-float,-register-all".

(** ** JavaScript numbers *)

Module Js.

Abbreviation number := float (only parsing).

(** [Math.round(x)]: NaN, the infinities and the zeros are returned as they
    are, and so is every value that is already integral (exponent [0 <= e]);
    otherwise the result is [floor(x + 1/2)] computed exactly, ties going
    towards +infinity, and a result of zero keeps the sign of [x]
    ([Math.round(-0.2)] is [-0]). *)
Definition Math_round (x : number) : number :=
  match Prim2SF x with
  | S754_finite s m e =>
      if (0 <=? e)%Z then x
      else
        let d := (2 ^ (- e))%Z in
        let n := ((2 * (if s then Z.neg m else Z.pos m) + d) / (2 * d))%Z in
        match n with
        | Z0 => if s then neg_zero else zero
        | Z.pos p => SF2Prim (S754_finite false p 0)
        | Z.neg p => SF2Prim (S754_finite true p 0)
        end
  | _ => x
  end.

(** [ToBoolean] of a number: [0], [-0] and [NaN] are falsy. *)
Definition number_truthy (x : number) : bool :=
  negb (PrimFloat.eqb x 0 || PrimFloat.is_nan x).

(** The number that an integer is (exact below 2^53), and the number that
    an array length is (lengths are below 2^32). *)
Definition of_Z (n : Z) : number := PrimFloat.of_uint63 (Uint63.of_Z n).
Definition of_length (n : nat) : number := of_Z (Z.of_nat n).

End Js.

(** [Math.round] on the cases that separate it from other roundings: ties
    go up, also for negative numbers; the largest double below one half
    rounds to 0; a negative result of zero is [-0]. *)
Example Math_round_examples :
  Js.Math_round 2.5 = 3%float
  /\ Js.Math_round (-2.5) = (-2)%float
  /\ Js.Math_round 0.49999999999999994 = 0%float
  /\ Js.Math_round (-0.2) = neg_zero
  /\ Js.Math_round 131670.00000000003 = 131670%float
  /\ Js.Math_round infinity = infinity
  /\ Js.Math_round 4503599627370497 = 4503599627370497%float.
Proof. repeat split; vm_compute; reflexivity. Qed.

(** ** The plain object [regionMultipliers] and property access *)

Module JsObject.

(** What [obj[key]] evaluates to when [obj] is an object literal whose own
    properties are numbers. Property access walks the prototype chain: a key
    that is not an own property is looked up in [Object.prototype], whose
    members are built-in functions (and, for [__proto__], the prototype
    object itself). *)
Inductive value : Type :=
| Number (n : Js.number)
| Builtin (name : string)
| Undefined.

(** The property names of [Object.prototype] (ECMAScript 20.1.3 and B.2.2). *)
Definition Object_prototype : list string :=
  [ "constructor"; "hasOwnProperty"; "isPrototypeOf"; "propertyIsEnumerable";
    "toLocaleString"; "toString"; "valueOf"; "__proto__";
    "__defineGetter__"; "__defineSetter__";
    "__lookupGetter__"; "__lookupSetter__" ].

(** [obj[key]] *)
Definition get (own : gmap string Js.number) (key : string) : value :=
  match own !! key with
  | Some n => Number n
  | None => if bool_decide (key ∈ Object_prototype) then Builtin key else Undefined
  end.

Definition ToBoolean (v : value) : bool :=
  match v with
  | Number n => Js.number_truthy n
  | Builtin _ => true
  | Undefined => false
  end.

(** [ToNumber]: a function or an ordinary object converts through its
    string form, which is not a numeric literal, hence to [NaN]. *)
Definition ToNumber (v : value) : Js.number :=
  match v with
  | Number n => n
  | Builtin _ => nan
  | Undefined => nan
  end.

(** [a || b] *)
Definition or (a b : value) : value := if ToBoolean a then a else b.

End JsObject.

(** ** The interfaces of api.service.ts *)

Module Api.

Inductive PriorityLevel : Type := LOW | STANDARD | VIP.

#[global] Instance PriorityLevel_eq_dec : EqDecision PriorityLevel.
Proof. solve_decision. Defined.

(** [Offer] *)
Record Offer : Type := {
  id : Js.number;
  offer_company_id : Js.number;
  offer_employees_count : Js.number;
  offer_region : string;
  offer_premium_48h : bool;
  base_price : Js.number;
  final_price : Js.number;
  ai_score : Js.number;
  ml_score : Js.number;
  rule_score : Js.number;
  priority_level : PriorityLevel;
  created_at : string
}.

(** [OfferCreate], the type given to the value of [pricingForm]. In the form
    [company_id] is [null] ([None]) until a company is chosen. *)
Record OfferCreate : Type := {
  company_id : option Js.number;
  employees_count : Js.number;
  region : string;
  premium_48h : bool;
  ml_feature_avg_order_value : Js.number;
  ml_feature_offers_count : Js.number
}.

End Api.

(** ** CalculatorComponent: the local price estimate *)

Module Calculator.
Export Api.

(** The argument of [calculateLocalEstimate] ([values: any]) is the value of
    [pricingForm]. *)
Abbreviation FormValue := OfferCreate.

(** [regions = ['Mazowieckie', 'Śląskie', 'Małopolskie', 'Inne']] *)
Definition regions : list string :=
  [ "Mazowieckie"; "Śląskie"; "Małopolskie"; "Inne" ].

(** The object literal [regionMultipliers] (own properties). *)
Definition regionMultipliers : gmap string Js.number :=
  <["Mazowieckie" := 1.2%float]>
    (<["Śląskie" := 1.1%float]>
       (<["Małopolskie" := 1.05%float]>
          (<["Inne" := 1.0%float]> ∅))).

Section Locals.
Variable values : FormValue.

(** [const basePrice = values.employees_count * 100;] *)
Definition unitRate : Js.number := 100%float.
Definition basePrice : Js.number := (employees_count values * 100)%float.

(** The quantity discount: the chain of [if ... else if ...]. *)
Definition discountRate : Js.number :=
  if (200 <? employees_count values)%float then 0.15%float
  else if (50 <? employees_count values)%float then 0.10%float
  else if (10 <? employees_count values)%float then 0.05%float
  else 0%float.

(** [regionMultipliers[values.region] || 1.0], as the number that
    [price *= ...] multiplies by. *)
Definition regionMultiplier : Js.number :=
  JsObject.ToNumber
    (JsObject.or (JsObject.get regionMultipliers (region values))
                 (JsObject.Number 1.0%float)).

(** [if (values.premium_48h) { price *= 1.20; }] *)
Definition applyPremium (price : Js.number) : Js.number :=
  if premium_48h values then (price * 1.20)%float else price.
End Locals.

(** [Math.round(price * 100) / 100] *)
Definition round2 (price : Js.number) : Js.number :=
  (Js.Math_round (price * 100) / 100)%float.

(** [calculateLocalEstimate(values)], statement by statement. *)
Definition calculateLocalEstimate (values : FormValue) : Js.number :=
  let basePrice := (employees_count values * 100)%float in
  let discountRate := 0%float in
  let discountRate :=
    if (200 <? employees_count values)%float then 0.15%float
    else if (50 <? employees_count values)%float then 0.10%float
    else if (10 <? employees_count values)%float then 0.05%float
    else discountRate in
  let price := (basePrice * (1 - discountRate))%float in
  let price :=
    (price * JsObject.ToNumber
               (JsObject.or (JsObject.get regionMultipliers (region values))
                            (JsObject.Number 1.0%float)))%float in
  let price := if premium_48h values then (price * 1.20)%float else price in
  (Js.Math_round (price * 100) / 100)%float.

(** The values [{...v, employees_count: n}]. *)
Definition with_employees (v : FormValue) (n : Js.number) : FormValue :=
  {| company_id := company_id v; employees_count := n; region := region v;
     premium_48h := premium_48h v;
     ml_feature_avg_order_value := ml_feature_avg_order_value v;
     ml_feature_offers_count := ml_feature_offers_count v |}.

(** The estimate per employee: [finalPrice / employees_count]. *)
Definition perEmployeePrice (v : FormValue) : Js.number :=
  (calculateLocalEstimate v / employees_count v)%float.

(** [getScoreClass(score)] *)
Definition getScoreClass (score : Js.number) : string :=
  if (70 <=? score)%float then "score-high"
  else if (40 <=? score)%float then "score-medium"
  else "score-low".

(** *** The reactive form and [calculate()] *)

Inductive FormControlStatus : Type := VALID | INVALID | PENDING | DISABLED.

(** A form control as [calculate] sees it: its validation status and the
    [touched] flag that [markAsTouched()] sets. *)
Record AbstractControl : Type := {
  status : FormControlStatus;
  touched : bool
}.

(** [pricingForm.controls], the six controls that [initForm] creates. *)
Record Controls : Type := {
  c_company_id : AbstractControl;
  c_employees_count : AbstractControl;
  c_region : AbstractControl;
  c_premium_48h : AbstractControl;
  c_ml_feature_avg_order_value : AbstractControl;
  c_ml_feature_offers_count : AbstractControl
}.

(** [pricingForm]: the group's aggregated [value] and [status] are stored
    properties, recomputed by Angular when a control's value changes. *)
Record FormGroup : Type := {
  controls : Controls;
  value : FormValue;
  group_status : FormControlStatus;
  group_touched : bool
}.

(** [pricingForm.invalid] *)
Definition invalid (f : FormGroup) : bool :=
  match group_status f with INVALID => true | _ => false end.

(** [control.markAsTouched()] on the control itself. *)
Definition markAsTouched (c : AbstractControl) : AbstractControl :=
  {| status := status c; touched := true |}.

(** [Object.keys(controls).forEach(key => get(key)?.markAsTouched())];
    [markAsTouched] also marks the parent group. *)
Definition markAllAsTouched (f : FormGroup) : FormGroup :=
  let cs := controls f in
  {| controls :=
       {| c_company_id := markAsTouched (c_company_id cs);
          c_employees_count := markAsTouched (c_employees_count cs);
          c_region := markAsTouched (c_region cs);
          c_premium_48h := markAsTouched (c_premium_48h cs);
          c_ml_feature_avg_order_value :=
            markAsTouched (c_ml_feature_avg_order_value cs);
          c_ml_feature_offers_count :=
            markAsTouched (c_ml_feature_offers_count cs) |};
     value := value f;
     group_status := group_status f;
     group_touched := true |}.

(** The fields of the component that [calculate] can reach. [emitted] is
    the trace of [calculateSubject$]: the values passed to [next], oldest
    first. [streamActive] says that [setupCalculateStream] has subscribed
    and [destroy$] has not fired, in which case the [tap] of the pipeline
    runs synchronously on every emission. API requests are made only by
    that pipeline, one per emission that survives the debounce. *)
Record Component : Type := {
  pricingForm : FormGroup;
  result : option Offer;
  loading : bool;
  streamActive : bool;
  emitted : list OfferCreate
}.

(** [calculate()] *)
Definition calculate (this : Component) : Component :=
  if invalid (pricingForm this) then
    {| pricingForm := markAllAsTouched (pricingForm this);
       result := result this;
       loading := loading this;
       streamActive := streamActive this;
       emitted := emitted this |}
  else
    {| pricingForm := pricingForm this;
       result := result this;
       loading := if streamActive this then true else loading this;
       streamActive := streamActive this;
       emitted := emitted this ++ [value (pricingForm this)] |}.

End Calculator.

(** ** OffersListComponent *)

Module OffersList.
Export Api.

(** The statistics fields of the component. *)
Record Stats : Type := {
  totalOffers : nat;
  avgAiScore : Js.number;
  vipCount : nat
}.

(** [offers.reduce((sum, o) => sum + o.ai_score, 0)] *)
Definition sumAiScore (offers : list Offer) : Js.number :=
  fold_left (fun sum o => (sum + ai_score o)%float) offers 0%float.

(** [calculateStats(offers)] *)
Definition calculateStats (offers : list Offer) : Stats :=
  {| totalOffers := length offers;
     avgAiScore :=
       if (0 <? length offers)%nat
       then Js.Math_round (sumAiScore offers / Js.of_length (length offers))
       else 0%float;
     vipCount :=
       length (filter (fun o => priority_level o = VIP) offers) |}.

(** The same computation with the division instrumented: a division whose
    divisor ([offers.length]) is zero is reported as [None]. *)
Definition checked_div (x : Js.number) (n : nat) : option Js.number :=
  match n with
  | O => None
  | S _ => Some (x / Js.of_length n)%float
  end.

Definition calculateStats_checked (offers : list Offer) : option Stats :=
  avg ← (if (0 <? length offers)%nat
         then Js.Math_round <$> checked_div (sumAiScore offers) (length offers)
         else Some 0%float);
  Some {| totalOffers := length offers;
          avgAiScore := avg;
          vipCount :=
            length (filter (fun o => priority_level o = VIP) offers) |}.

(** [getScoreColor(score)] *)
Definition getScoreColor (score : Js.number) : string :=
  if (70 <=? score)%float then "#4caf50"
  else if (40 <=? score)%float then "#ff9800"
  else "#f44336".

End OffersList.

(** ** AuthService: the stored session *)

Module Auth.

(** A value produced by [JSON.parse]. *)
Inductive JsValue : Type :=
| JNull
| JBool (b : bool)
| JNumber (n : Js.number)
| JString (s : string)
| JArray (items : list JsValue)
| JObject (props : list (string * JsValue)).

Inductive Error : Type := SyntaxError | TypeError.

(** [localStorage]: string keys, string values. *)
Abbreviation Storage := (gmap string string).

(** Code that reads and writes [localStorage] and may throw. *)
Inductive Outcome (A : Type) : Type :=
| Return (a : A)
| Throw (e : Error).
Arguments Return {A} a.
Arguments Throw {A} e.

Definition M (A : Type) : Type := Storage -> Outcome A * Storage.

Definition ret {A} (a : A) : M A := fun ls => (Return a, ls).
Definition throw {A} (e : Error) : M A := fun ls => (Throw e, ls).
Definition bind {A B} (m : M A) (k : A -> M B) : M B :=
  fun ls =>
    match m ls with
    | (Return a, ls') => k a ls'
    | (Throw e, ls') => (Throw e, ls')
    end.
(** [try { body } catch (e) { handler }] *)
Definition try_catch {A} (body : M A) (handler : Error -> M A) : M A :=
  fun ls =>
    match body ls with
    | (Return a, ls') => (Return a, ls')
    | (Throw e, ls') => handler e ls'
    end.

Notation "'let!' x ':=' m 'in' k" := (bind m (fun x => k))
  (at level 10, x name, m at level 100, k at level 200).
Notation "'do!' m 'in' k" := (bind m (fun _ => k))
  (at level 10, m at level 100, k at level 200).

(** [localStorage.getItem(key)]: [None] is JavaScript's [null]. *)
Definition getItem (key : string) : M (option string) :=
  fun ls => (Return (ls !! key), ls).
(** [localStorage.removeItem(key)] *)
Definition removeItem (key : string) : M unit :=
  fun ls => (Return tt, delete key ls).

(** [ToBoolean] of a property value; [None] is [undefined]. *)
Definition ToBoolean (v : option JsValue) : bool :=
  match v with
  | None | Some JNull => false
  | Some (JBool b) => b
  | Some (JNumber n) => Js.number_truthy n
  | Some (JString s) => negb (bool_decide (s = ""))
  | Some (JArray _) | Some (JObject _) => true
  end.

(** The own property [expiresAt] of a value that is not [null]: an object
    yields its property, [undefined] ([None]) when it has none; a primitive
    or an array yields [undefined] (no prototype defines [expiresAt]).
    [JSON.parse] keeps one property per key, so the association list has no
    repeated key. *)
Definition expiresAt_of (user : JsValue) : option JsValue :=
  match user with
  | JObject props =>
      snd <$> find (fun kv => bool_decide (fst kv = "expiresAt")) props
  | _ => None
  end.

(** [user.expiresAt]: reading a property of [null] throws a TypeError. *)
Definition get_expiresAt (user : JsValue) : M (option JsValue) :=
  match user with
  | JNull => throw TypeError
  | _ => ret (expiresAt_of user)
  end.

Section GetStoredUser.

(** The built-ins the method calls. [JSON_parse] is [None] when
    [JSON.parse] throws a SyntaxError. [ToNumber_other] is [ToNumber] on
    strings, arrays and objects (string numeric literals and
    [OrdinaryToPrimitive], which may throw a TypeError). *)
Variable JSON_parse : string -> option JsValue.
Variable ToNumber_other : JsValue -> Outcome Js.number.

Definition ToNumber (v : JsValue) : M Js.number :=
  match v with
  | JNull => ret 0%float
  | JBool b => ret (if b then 1%float else 0%float)
  | JNumber n => ret n
  | _ => fun ls => (ToNumber_other v, ls)
  end.

(** [now > v], the left operand being a number. *)
Definition gt (now : Js.number) (v : option JsValue) : M bool :=
  match v with
  | None => ret false
  | Some v => let! n := ToNumber v in ret (n <? now)%float
  end.

Definition clearStorage : M unit := removeItem "currentUser".

(** [getStoredUser()]; [now] is the value of [Date.now()], and a result
    of [None] is [null]. The guard [if (!stored) return null] returns for
    [null] and for the empty string, the two falsy values of [getItem]. *)
Definition getStoredUser (now : Js.number) : M (option JsValue) :=
  try_catch
    (let! stored := getItem "currentUser" in
     match stored with
     | None => ret None
     | Some text =>
         if bool_decide (text = "") then ret None
         else
           let! user := match JSON_parse text with
                        | Some v => ret v
                        | None => throw SyntaxError
                        end in
           let! expiresAt := get_expiresAt user in
           let! expired := if ToBoolean expiresAt then gt now expiresAt
                           else ret false in
           if expired then do! clearStorage in ret None
           else ret (Some user)
     end)
    (fun e => do! clearStorage in ret None).

End GetStoredUser.

(** A parser that knows the listed texts only: each row gives what
    [JSON.parse] returns for that text. *)
Definition parse_table (rows : list (string * JsValue)) (text : string)
  : option JsValue :=
  snd <$> find (fun row => bool_decide (fst row = text)) rows.

End Auth.

(** ** CalculatorComponent: the price preview stream *)

Module PricePreview.
Import Calculator.

(** The comparator given to [distinctUntilChanged] in [setupPricePreview]:
    [prev.employees_count === curr.employees_count && prev.region ===
    curr.region && prev.premium_48h === curr.premium_48h]. On numbers [===]
    is the IEEE equality: NaN differs from itself, [0] equals [-0]. *)
Definition unchanged (prev curr : FormValue) : bool :=
  PrimFloat.eqb (employees_count prev) (employees_count curr)
  && bool_decide (region prev = region curr)
  && Bool.eqb (premium_48h prev) (premium_48h curr).

(** [distinctUntilChanged(comparator)] on the values that reach it: the
    first is passed on, a later one is passed on when the comparator finds
    it different from the last value passed on. [last] is that value. *)
Fixpoint distinctFrom {A} (same : A -> A -> bool) (last : A) (vs : list A)
  : list A :=
  match vs with
  | [] => []
  | v :: rest =>
      if same last v then distinctFrom same last rest
      else v :: distinctFrom same v rest
  end.

Definition distinctUntilChanged {A} (same : A -> A -> bool) (vs : list A)
  : list A :=
  match vs with
  | [] => []
  | v :: rest => v :: distinctFrom same v rest
  end.

(** The values pushed into [estimatedPrice$] for the form values [vs] that
    come out of [debounceTime(200)], oldest first:
    [distinctUntilChanged(...)], then [map(calculateLocalEstimate)], then
    [estimatedPrice$.next(estimate)]. *)
Definition previewEstimates (vs : list FormValue) : list Js.number :=
  map calculateLocalEstimate (distinctUntilChanged unchanged vs).

(** [estimatedPrice$.value] afterwards; the subject starts at 0. *)
Definition estimatedPrice (vs : list FormValue) : Js.number :=
  List.last (previewEstimates vs) 0%float.

End PricePreview.

(** ** AuthService: the session in memory *)

Module AuthService.
Import Auth.

(** [obj.name] for a value that is not [null], for a name that no built-in
    prototype defines ([token], [role], [exp]): an object yields its own
    property, anything else [undefined]. *)
Definition field_of (name : string) (v : JsValue) : option JsValue :=
  match v with
  | JObject props => snd <$> find (fun kv => bool_decide (fst kv = name)) props
  | _ => None
  end.

(** [s.split(sep)] for a one-character separator. *)
Fixpoint split_on (sep : Ascii.ascii) (s : string) : list string :=
  match s with
  | EmptyString => [EmptyString]
  | String a rest =>
      if Ascii.eqb a sep then EmptyString :: split_on sep rest
      else match split_on sep rest with
           | head :: tail => String a head :: tail
           | [] => [String a EmptyString]
           end
  end.

(** [s.replace(/c/g, d)] for single characters [c] and [d]. *)
Fixpoint replace_all (c d : Ascii.ascii) (s : string) : string :=
  match s with
  | EmptyString => EmptyString
  | String a rest =>
      String (if Ascii.eqb a c then d else a) (replace_all c d rest)
  end.

Definition dot : Ascii.ascii := Ascii.ascii_of_nat 46.
Definition minus : Ascii.ascii := Ascii.ascii_of_nat 45.
Definition plus : Ascii.ascii := Ascii.ascii_of_nat 43.
Definition underscore : Ascii.ascii := Ascii.ascii_of_nat 95.
Definition slash : Ascii.ascii := Ascii.ascii_of_nat 47.

(** [LoginResponse] *)
Record LoginResponse : Type := {
  access_token : string;
  token_type : string
}.

(** [payload?.sub]: of a string it is the method [String.prototype.sub]. *)
Inductive Email : Type :=
| EmailUndefined
| EmailValue (v : JsValue)
| EmailBuiltin.

(** The object [user] that the [tap] of [login] builds. [lu_expiresAt] is
    [None] when the property is [undefined]. *)
Record LoginUser : Type := {
  lu_token : string;
  lu_email : Email;
  lu_role : JsValue;
  lu_expiresAt : option Js.number
}.

(** The current user: a value restored by [getStoredUser], or a user built
    by [login]. *)
Inductive SessionUser : Type :=
| Stored (v : JsValue)
| LoggedIn (u : LoginUser).

Definition user_truthy (u : SessionUser) : bool :=
  match u with
  | Stored v => ToBoolean (Some v)
  | LoggedIn _ => true
  end.

Definition user_token (u : SessionUser) : option JsValue :=
  match u with
  | Stored v => field_of "token" v
  | LoggedIn l => Some (JString (lu_token l))
  end.

Definition user_role (u : SessionUser) : option JsValue :=
  match u with
  | Stored v => field_of "role" v
  | LoggedIn l => Some (lu_role l)
  end.

Definition user_expiresAt (u : SessionUser) : option JsValue :=
  match u with
  | Stored v => expiresAt_of v
  | LoggedIn l => JNumber <$> lu_expiresAt l
  end.

(** The service: [localStorage], [currentUserSubject.value],
    [roleCache$.value] ([None] for [null] and [undefined], which nothing
    tells apart) and the routes passed to [router.navigate], oldest first. *)
Record Service : Type := {
  storage : Storage;
  currentUser : option SessionUser;
  roleCache : option JsValue;
  navigations : list string
}.

Section Methods.

(** The built-ins: [JSON.parse] and [ToNumber] as for [getStoredUser],
    [window.atob] ([None] when it throws) and [JSON.stringify] on the user
    that [login] builds. *)
Variable JSON_parse : string -> option JsValue.
Variable ToNumber_other : JsValue -> Outcome Js.number.
Variable atob : string -> option string.
Variable JSON_stringify : LoginUser -> string.

(** The constructor: [currentUserSubject] starts at [getStoredUser()], and
    [roleCache$] at [storedUser.role] when [storedUser] is truthy. *)
Definition construct (now : Js.number) (ls : Storage) : Outcome Service :=
  match getStoredUser JSON_parse ToNumber_other now ls with
  | (Return storedUser, ls') =>
      Return
        {| storage := ls';
           currentUser := Stored <$> storedUser;
           roleCache :=
             match storedUser with
             | Some v => if ToBoolean (Some v) then field_of "role" v else None
             | None => None
             end;
           navigations := [] |}
  | (Throw e, _) => Throw e
  end.

(** [parseJwt(token)]; the result [JNull] is [null], returned by the
    [catch] and by a payload that is the JSON text [null]. *)
Definition parseJwt (token : string) : JsValue :=
  match split_on dot token with
  | _ :: base64Url :: _ =>
      let base64 := replace_all underscore slash
                      (replace_all minus plus base64Url) in
      match atob base64 with
      | Some text =>
          match JSON_parse text with
          | Some payload => payload
          | None => JNull
          end
      | None => JNull
      end
  | _ => JNull
  end.

(** [payload?.name] for [role] and [exp]. *)
Definition payload_field (name : string) (payload : JsValue) : option JsValue :=
  match payload with
  | JNull => None
  | _ => field_of name payload
  end.

(** [payload?.sub] *)
Definition payload_sub (payload : JsValue) : Email :=
  match payload with
  | JString _ => EmailBuiltin
  | JObject _ =>
      match field_of "sub" payload with
      | Some v => EmailValue v
      | None => EmailUndefined
      end
  | _ => EmailUndefined
  end.

(** The object literal [user] of the [tap]; [payload.exp * 1000] converts
    [exp] to a number, which may throw. *)
Definition build_user (token : string) : Outcome LoginUser :=
  let payload := parseJwt token in
  let role := payload_field "role" payload in
  let exp := payload_field "exp" payload in
  let expiresAt :=
    match exp with
    | Some e =>
        if ToBoolean exp then
          match fst (ToNumber ToNumber_other e ∅) with
          | Return n => Return (Some (n * 1000)%float)
          | Throw err => Throw err
          end
        else Return None
    | None => Return None
    end in
  match expiresAt with
  | Return x =>
      Return {| lu_token := token;
                lu_email := payload_sub payload;
                lu_role := if ToBoolean role then default (JString "user") role
                           else JString "user";
                lu_expiresAt := x |}
  | Throw err => Throw err
  end.

(** The [tap] of [login] on a response [res]: nothing happens when
    [res.access_token] is empty; an exception leaves the service as it is. *)
Definition login_tap (res : LoginResponse) (s : Service)
  : Outcome unit * Service :=
  if bool_decide (access_token res = "") then (Return tt, s)
  else
    match build_user (access_token res) with
    | Return user =>
        (Return tt,
         {| storage := <["currentUser" := JSON_stringify user]> (storage s);
            currentUser := Some (LoggedIn user);
            roleCache := Some (lu_role user);
            navigations := navigations s |})
    | Throw err => (Throw err, s)
    end.

(** [logout()] *)
Definition logout (s : Service) : Service :=
  {| storage := delete "currentUser" (storage s);
     currentUser := None;
     roleCache := None;
     navigations := navigations s ++ ["/login"] |}.

(** [user.expiresAt && Date.now() > user.expiresAt] *)
Definition session_expired (now : Js.number) (u : SessionUser) : Outcome bool :=
  if ToBoolean (user_expiresAt u)
  then fst (gt ToNumber_other now (user_expiresAt u) ∅)
  else Return false.

(** [isLoggedIn()] *)
Definition isLoggedIn (now : Js.number) (s : Service) : Outcome bool * Service :=
  match currentUser s with
  | None => (Return false, s)
  | Some user =>
      if negb (user_truthy user) || negb (ToBoolean (user_token user))
      then (Return false, s)
      else
        match session_expired now user with
        | Return true => (Return false, logout s)
        | Return false => (Return true, s)
        | Throw err => (Throw err, s)
        end
  end.

(** [getToken()]: [currentUserValue?.token || null] *)
Definition getToken (s : Service) : option JsValue :=
  match currentUser s with
  | None => None
  | Some user =>
      if ToBoolean (user_token user) then user_token user else None
  end.

(** [getCurrentUser()] *)
Definition getCurrentUser (s : Service) : option SessionUser := currentUser s.

(** [isAdmin()]: [roleCache$.value === 'admin'] *)
Definition isAdmin (s : Service) : bool :=
  match roleCache s with
  | Some (JString role) => bool_decide (role = "admin")
  | _ => false
  end.

End Methods.

End AuthService.

(** ** ApiService: request headers and the companies cache *)

Module ApiService.
Import Auth AuthService.

(** The two headers that [getHeaders] sets. *)
Record HttpHeaders : Type := {
  Authorization : string;
  Content_Type : string
}.

Section GetHeaders.

(** [JSON.parse] as before; [ToString_other] is [ToString] on a truthy
    value that is not a string (a number, [true], an array or an object; the
    last two may throw). *)
Variable JSON_parse : string -> option JsValue.
Variable ToString_other : JsValue -> Outcome string.

(** [localStorage.getItem('currentUser') || '{}'] *)
Definition stored_text (ls : Storage) : string :=
  match ls !! "currentUser" with
  | Some text => if bool_decide (text = "") then "{}" else text
  | None => "{}"
  end.

(** [JSON.parse(...)] followed by the read of [user.token]; neither is
    guarded by a [try]. *)
Definition read_token (ls : Storage) : Outcome (option JsValue) :=
  match JSON_parse (stored_text ls) with
  | None => Throw SyntaxError
  | Some JNull => Throw TypeError
  | Some user => Return (field_of "token" user)
  end.

(** The template [`Bearer ${user.token || ''}`] *)
Definition bearer (token : option JsValue) : Outcome string :=
  if ToBoolean token then
    match token with
    | Some (JString t) => Return ("Bearer " +:+ t)
    | Some v =>
        match ToString_other v with
        | Return t => Return ("Bearer " +:+ t)
        | Throw e => Throw e
        end
    | None => Return "Bearer "
    end
  else Return "Bearer ".

(** [getHeaders()] *)
Definition getHeaders (ls : Storage) : Outcome HttpHeaders :=
  match read_token ls with
  | Return token =>
      match bearer token with
      | Return a =>
          Return {| Authorization := a; Content_Type := "application/json" |}
      | Throw e => Throw e
      end
  | Throw e => Throw e
  end.

End GetHeaders.

(** *** The companies cache *)

(** [companiesCache$] is an observable. Each one that [getCompanies] creates
    is a request with the headers read at that call; [requests] lists them
    in order of creation, and an observable is named by its position in
    that list. *)
Record Cache : Type := {
  companiesCache : option nat;
  lastCacheTime : Js.number;
  requests : list HttpHeaders
}.

(** [cacheExpiry = 5 * 60 * 1000] *)
Definition cacheExpiry : Js.number := (5 * 60 * 1000)%float.

Definition initial : Cache :=
  {| companiesCache := None; lastCacheTime := 0%float; requests := [] |}.

(** The tap of the request pipeline, when a response arrives at [now]:
    [this.lastCacheTime = Date.now()]. *)
Definition responded (now : Js.number) (c : Cache) : Cache :=
  {| companiesCache := companiesCache c;
     lastCacheTime := now;
     requests := requests c |}.

(** The [catchError] of the request pipeline: [this.companiesCache$ = null]. *)
Definition failed (c : Cache) : Cache :=
  {| companiesCache := None;
     lastCacheTime := lastCacheTime c;
     requests := requests c |}.

(** [invalidateCache()] *)
Definition invalidateCache (c : Cache) : Cache :=
  {| companiesCache := None; lastCacheTime := 0%float;
     requests := requests c |}.

Section GetCompanies.

Variable JSON_parse : string -> option JsValue.
Variable ToString_other : JsValue -> Outcome string.

(** The second half of [getCompanies]: [this.getHeaders()] is evaluated
    first, and when it throws nothing is assigned. *)
Definition request (ls : Storage) (c : Cache) : Outcome nat * Cache :=
  match getHeaders JSON_parse ToString_other ls with
  | Return h =>
      (Return (length (requests c)),
       {| companiesCache := Some (length (requests c));
          lastCacheTime := lastCacheTime c;
          requests := requests c ++ [h] |})
  | Throw e => (Throw e, c)
  end.

(** [getCompanies(forceRefresh)] at time [now]: the observable returned, and
    the cache afterwards. *)
Definition getCompanies (now : Js.number) (forceRefresh : bool)
    (ls : Storage) (c : Cache) : Outcome nat * Cache :=
  match companiesCache c with
  | Some cached =>
      if negb forceRefresh && (now - lastCacheTime c <? cacheExpiry)%float
      then (Return cached, c)
      else request ls c
  | None => request ls c
  end.

End GetCompanies.

End ApiService.

(** ** OffersListComponent: the table filter *)

Module OffersFilter.
Import Api.

(** [s.includes(sub)] *)
Fixpoint includes (s sub : string) : bool :=
  String.prefix sub s
  || match s with
     | EmptyString => false
     | String _ rest => includes rest sub
     end.

(** The string that a priority level is. *)
Definition priority_text (p : PriorityLevel) : string :=
  match p with
  | LOW => "LOW"
  | STANDARD => "STANDARD"
  | VIP => "VIP"
  end.

Section Filter.

(** The built-ins: [String.prototype.toLowerCase], [String.prototype.trim]
    and [Number.prototype.toString]. *)
Variable toLowerCase : string -> string.
Variable trim : string -> string.
Variable Number_toString : Js.number -> string.

(** [dataSource.filterPredicate]; [priorityFilter] and [regionFilter] are the
    values of the two form controls ([None] is [null]). *)
Definition filterPredicate (priorityFilter regionFilter : option string)
    (data : Offer) (filter : string) : bool :=
  let searchMatch :=
    bool_decide (filter = "")
    || includes (toLowerCase (offer_region data)) filter
    || includes (toLowerCase (priority_text (priority_level data))) filter
    || includes (Number_toString (id data)) filter in
  let priorityMatch :=
    bool_decide (priorityFilter = Some "all")
    || bool_decide (Some (priority_text (priority_level data)) = priorityFilter) in
  let regionMatch :=
    bool_decide (regionFilter = Some "all")
    || bool_decide (Some (offer_region data) = regionFilter) in
  searchMatch && priorityMatch && regionMatch.

(** The filter string set when the search box changes to [value]:
    [value?.trim().toLowerCase() || '']. *)
Definition filter_on_search (value : option string) : string :=
  match value with
  | Some v => toLowerCase (trim v)
  | None => ""
  end.

(** The filter string set when the priority or the region selection
    changes: [this.searchControl.value || ' ']. *)
Definition filter_on_select (searchValue : option string) : string :=
  match searchValue with
  | Some v => if bool_decide (v = "") then " " else v
  | None => " "
  end.

(** The rows that the table shows: [MatTableDataSource] applies the
    predicate to every row unless the filter string is empty. *)
Definition filteredData (priorityFilter regionFilter : option string)
    (filter : string) (data : list Offer) : list Offer :=
  if bool_decide (filter = "") then data
  else List.filter (fun o => filterPredicate priorityFilter regionFilter o filter)
                   data.

End Filter.

End OffersFilter.

(** ** OffersListComponent: the CSV export *)

Module OffersExport.
Import Api OffersFilter.

Definition comma : Ascii.ascii := Ascii.ascii_of_nat 44.
Definition newline : Ascii.ascii := Ascii.ascii_of_nat 10.

(** [a.join(sep)] for an array of strings and a one-character separator. *)
Definition join (sep : Ascii.ascii) (a : list string) : string :=
  String.concat (String sep EmptyString) a.

Definition headers : list string :=
  [ "ID"; "Company ID"; "Employees"; "Region"; "Base Price"; "Final Price";
    "AI Score"; "Priority" ].

Section Csv.

(** [Number.prototype.toString], which [join] applies to a number. *)
Variable Number_toString : Js.number -> string.

(** The array built for one offer, each element as [join] writes it. *)
Definition row (o : Offer) : list string :=
  [ Number_toString (id o);
    Number_toString (offer_company_id o);
    Number_toString (offer_employees_count o);
    offer_region o;
    Number_toString (base_price o);
    Number_toString (final_price o);
    Number_toString (ai_score o);
    priority_text (priority_level o) ].

(** The text [csv] that [exportToCSV] puts into the file, for the rows
    [dataSource.filteredData]. *)
Definition csv (filteredData : list Offer) : string :=
  let rows := map row filteredData in
  join newline (join comma headers :: map (fun r => join comma r) rows).

End Csv.

End OffersExport.

(** ** The state that [calculateLocalEstimate] runs in *)

Module Ambient.
Import Calculator.

(** The built-in objects that the body of [calculateLocalEstimate] reaches:
    [Math.round], a writable property of the global [Math], and the
    properties of [Object.prototype], where the lookup
    [regionMultipliers[values.region]] continues for a key that is not an
    own property of the object literal. Both are shared by all the scripts
    of the page, and any of them can assign to them. A property value is a
    number, a function or object, or [undefined]. *)
Record Builtins : Type := {
  Math_round : Js.number -> Js.number;
  Object_prototype : gmap string JsObject.value
}.

(** The state a method of the component is called in: the component itself
    ([this]) and the built-ins. *)
Record State : Type := {
  this : Component;
  builtins : Builtins
}.

(** The built-ins as the language defines them. *)
Definition standard : Builtins :=
  {| Math_round := Js.Math_round;
     Object_prototype :=
       list_to_map
         (map (fun key => (key, JsObject.Builtin key))
              JsObject.Object_prototype) |}.


(** [obj[key]] for an object literal with the own properties [own]. *)
Definition get (b : Builtins) (own : gmap string Js.number) (key : string)
  : JsObject.value :=
  match own !! key with
  | Some n => JsObject.Number n
  | None =>
      match Object_prototype b !! key with
      | Some v => v
      | None => JsObject.Undefined
      end
  end.

(** [calculateLocalEstimate(values)] called in the state [s], statement by
    statement: the number returned and the state afterwards. The body
    assigns to its locals only, reads no property of [this], and reaches the
    built-ins in the lookup and in the call of [Math.round]. *)
Definition calculateLocalEstimate (values : FormValue) (s : State)
  : Js.number * State :=
  let basePrice := (employees_count values * 100)%float in
  let discountRate := 0%float in
  let discountRate :=
    if (200 <? employees_count values)%float then 0.15%float
    else if (50 <? employees_count values)%float then 0.10%float
    else if (10 <? employees_count values)%float then 0.05%float
    else discountRate in
  let price := (basePrice * (1 - discountRate))%float in
  let price :=
    (price * JsObject.ToNumber
               (JsObject.or (get (builtins s) regionMultipliers (region values))
                            (JsObject.Number 1.0%float)))%float in
  let price := if premium_48h values then (price * 1.20)%float else price in
  ((Math_round (builtins s) (price * 100) / 100)%float, s).

End Ambient.

(** * Properties *)

(** ** Comparisons of doubles *)

(** The order of binary64 values, from the specification of the primitive
    comparisons: [<] and [<=] are each other's negation away from NaN, and
    they chain. *)
Section FloatOrder.

Lemma float_neq (x y : float) : PrimFloat.Leibniz.eqb x y = false -> x <> y.
Proof.
  intros H E. apply FloatAxioms.Leibniz.eqb_spec in E. congruence.
Qed.

Lemma SFcompare_antisym (x y : spec_float) :
  SFcompare y x = option_map CompOpp (SFcompare x y).
Proof.
  destruct x as [sx|sx| |sx mx ex], y as [sy|sy| |sy my ey]; simpl;
    try destruct sx; try destruct sy; simpl; try reflexivity.
  all: rewrite (Z.compare_antisym ex ey);
    destruct (ex ?= ey)%Z; simpl; try reflexivity;
    rewrite (Pos.compare_cont_antisym mx my); simpl;
    rewrite ?CompOpp_involutive; reflexivity.
Qed.

Lemma ltb_leb_false (x y : float) :
  (x <? y)%float = true -> (y <=? x)%float = false.
Proof.
  rewrite FloatAxioms.ltb_spec, FloatAxioms.leb_spec. unfold SFltb, SFleb.
  rewrite (SFcompare_antisym (Prim2SF x) (Prim2SF y)).
  destruct (SFcompare (Prim2SF x) (Prim2SF y)) as [[]|]; simpl; congruence.
Qed.

Lemma leb_ltb_false (x y : float) :
  (x <=? y)%float = true -> (y <? x)%float = false.
Proof.
  rewrite FloatAxioms.ltb_spec, FloatAxioms.leb_spec. unfold SFltb, SFleb.
  rewrite (SFcompare_antisym (Prim2SF x) (Prim2SF y)).
  destruct (SFcompare (Prim2SF x) (Prim2SF y)) as [[]|]; simpl; congruence.
Qed.

Lemma not_nan_comparable (x y : float) :
  PrimFloat.is_nan x = false -> PrimFloat.is_nan y = false ->
  SFcompare (Prim2SF x) (Prim2SF y) <> None.
Proof.
  unfold PrimFloat.is_nan. rewrite !FloatAxioms.eqb_spec. unfold SFeqb.
  destruct (Prim2SF x) as [s|s| |s m e], (Prim2SF y) as [s'|s'| |s' m' e'];
    simpl; try discriminate; intros _ _.
  all: try destruct s; try destruct s'; discriminate.
Qed.

Lemma not_leb_ltb (x y : float) :
  PrimFloat.is_nan x = false -> PrimFloat.is_nan y = false ->
  (x <=? y)%float = false -> (y <? x)%float = true.
Proof.
  intros Hx Hy. pose proof (not_nan_comparable x y Hx Hy) as Hc.
  rewrite FloatAxioms.ltb_spec, FloatAxioms.leb_spec. unfold SFltb, SFleb.
  rewrite (SFcompare_antisym (Prim2SF x) (Prim2SF y)).
  destruct (SFcompare (Prim2SF x) (Prim2SF y)) as [[]|]; simpl; congruence.
Qed.

Lemma not_ltb_leb (x y : float) :
  PrimFloat.is_nan x = false -> PrimFloat.is_nan y = false ->
  (x <? y)%float = false -> (y <=? x)%float = true.
Proof.
  intros Hx Hy. pose proof (not_nan_comparable x y Hx Hy) as Hc.
  rewrite FloatAxioms.ltb_spec, FloatAxioms.leb_spec. unfold SFltb, SFleb.
  rewrite (SFcompare_antisym (Prim2SF x) (Prim2SF y)).
  destruct (SFcompare (Prim2SF x) (Prim2SF y)) as [[]|]; simpl; congruence.
Qed.

Ltac cmp_cases :=
  repeat match goal with
  | H : context [Z.compare ?a ?b] |- _ =>
      destruct (Z.compare_spec a b); simpl in H
  | H : context [Pos.compare ?a ?b] |- _ =>
      destruct (Pos.compare_spec a b); simpl in H
  | |- context [Z.compare ?a ?b] => destruct (Z.compare_spec a b); simpl
  | |- context [Pos.compare ?a ?b] => destruct (Pos.compare_spec a b); simpl
  end.

Ltac order_by_cases :=
  unfold SFleb, SFltb;
  intros [[]|[]| |[] ? ?] [[]|[]| |[] ? ?] [[]|[]| |[] ? ?];
  simpl; try discriminate; try reflexivity;
  change (Pos.compare_cont Eq) with Pos.compare;
  intros ? ?; cmp_cases; try discriminate; try reflexivity; lia.

Lemma SFltb_leb_trans :
  forall x y z : spec_float,
    SFltb x y = true -> SFleb y z = true -> SFltb x z = true.
Proof. order_by_cases. Qed.

Lemma SFleb_trans :
  forall x y z : spec_float,
    SFleb x y = true -> SFleb y z = true -> SFleb x z = true.
Proof. order_by_cases. Qed.

Lemma ltb_leb_trans (x y z : float) :
  (x <? y)%float = true -> (y <=? z)%float = true -> (x <? z)%float = true.
Proof. rewrite !FloatAxioms.ltb_spec, FloatAxioms.leb_spec. apply SFltb_leb_trans. Qed.

Lemma leb_trans (x y z : float) :
  (x <=? y)%float = true -> (y <=? z)%float = true -> (x <=? z)%float = true.
Proof. rewrite !FloatAxioms.leb_spec. apply SFleb_trans. Qed.

(** A comparison with NaN is false. *)
Lemma ltb_not_nan_r (x y : float) : (x <? y)%float = true -> PrimFloat.is_nan y = false.
Proof.
  unfold PrimFloat.is_nan. rewrite FloatAxioms.ltb_spec, FloatAxioms.eqb_spec. unfold SFltb, SFeqb.
  destruct (Prim2SF x) as [s|s| |s m e], (Prim2SF y) as [s'|s'| |s' m' e'];
    simpl; try discriminate; try reflexivity.
  all: try destruct s'; try reflexivity.
  all: intros _; rewrite Z.compare_refl;
    change (Pos.compare_cont Eq) with Pos.compare;
    rewrite Pos.compare_refl; reflexivity.
Qed.

Lemma leb_not_nan_l (x y : float) : (x <=? y)%float = true -> PrimFloat.is_nan x = false.
Proof.
  unfold PrimFloat.is_nan. rewrite FloatAxioms.leb_spec, FloatAxioms.eqb_spec. unfold SFleb, SFeqb.
  destruct (Prim2SF x) as [s|s| |s m e], (Prim2SF y) as [s'|s'| |s' m' e'];
    simpl; try discriminate; try reflexivity.
  all: try destruct s; try reflexivity.
  all: intros _; rewrite Z.compare_refl;
    change (Pos.compare_cont Eq) with Pos.compare;
    rewrite Pos.compare_refl; reflexivity.
Qed.

Lemma ltb_leb (x y : float) : (x <? y)%float = true -> (x <=? y)%float = true.
Proof.
  rewrite FloatAxioms.ltb_spec, FloatAxioms.leb_spec. unfold SFltb, SFleb.
  destruct (SFcompare (Prim2SF x) (Prim2SF y)) as [[]|]; congruence.
Qed.

(** Two doubles that are below each other are the same double, when one
    of them is finite and not zero. *)
Lemma leb_antisym_finite (x c : float) (s : bool) (m : positive) (e : Z) :
  Prim2SF c = S754_finite s m e ->
  (x <=? c)%float = true -> (c <=? x)%float = true -> x = c.
Proof.
  intros Hc. rewrite !FloatAxioms.leb_spec, Hc. intros H1 H2.
  apply Prim2SF_inj. rewrite Hc. revert H1 H2. unfold SFleb.
  destruct (Prim2SF x) as [[]|[]| |[] m' e'], s; simpl;
    try discriminate;
    change (Pos.compare_cont Eq) with Pos.compare;
    intros H1 H2; cmp_cases; try discriminate; subst;
    try reflexivity; lia.
Qed.

End FloatOrder.

(** ** Checking a finite range of integers *)

Fixpoint Zrange (start : Z) (len : nat) : list Z :=
  match len with
  | O => []
  | S len' => start :: Zrange (start + 1) len'
  end.

Lemma Zrange_In (len : nat) :
  forall start n : Z,
    (start <= n < start + Z.of_nat len)%Z -> In n (Zrange start len).
Proof.
  induction len as [|len IH]; intros start n Hn; [lia|].
  simpl. destruct (Z.eq_dec start n) as [->|Hne]; [left; reflexivity|].
  right. apply IH. lia.
Qed.

(** A property checked on the whole range holds at each of its points. *)
Lemma forallb_Zrange (f : Z -> bool) (start : Z) (len : nat) (n : Z) :
  forallb f (Zrange start len) = true ->
  (start <= n < start + Z.of_nat len)%Z -> f n = true.
Proof.
  intros Hall Hn. rewrite forallb_forall in Hall.
  apply Hall, Zrange_In, Hn.
Qed.

(** ** The local price estimate *)

Module CalculatorFacts.
Import Calculator.

(** The own properties of [regionMultipliers], key by key. *)
Lemma regionMultipliers_lookup (r : string) :
  regionMultipliers !! r =
    if decide (r = "Mazowieckie") then Some 1.2%float
    else if decide (r = "Śląskie") then Some 1.1%float
    else if decide (r = "Małopolskie") then Some 1.05%float
    else if decide (r = "Inne") then Some 1.0%float
    else None.
Proof.
  unfold regionMultipliers.
  repeat (rewrite lookup_insert; case_decide; [subst; repeat case_decide; congruence|]).
  repeat case_decide; try congruence. apply lookup_empty.
Qed.

(** The method is the cascade of its named steps: base price, quantity
    discount, region multiplier, premium surcharge, rounding. *)
Lemma estimate_unfold (values : FormValue) :
  calculateLocalEstimate values =
    round2 (applyPremium values
              (basePrice values * (1 - discountRate values)
               * regionMultiplier values)%float).
Proof. reflexivity. Qed.

(** An unknown region that names no member of [Object.prototype] gets the
    fallback [1.0]. *)
Lemma unknown_region_fallback (values : FormValue) :
  JsObject.get regionMultipliers (region values) = JsObject.Undefined ->
  regionMultiplier values = 1.0%float.
Proof. intros H. unfold regionMultiplier. rewrite H. reflexivity. Qed.

(** The regions for which the lookup resolves: the listed ones, and the
    strings for which it finds nothing. *)
Definition knownOrFallback (r : string) : Prop :=
  r ∈ regions \/ JsObject.get regionMultipliers r = JsObject.Undefined.

(** They are all strings but the twelve property names of
    [Object.prototype]. *)
Lemma knownOrFallback_iff (r : string) :
  knownOrFallback r <-> r ∉ JsObject.Object_prototype.
Proof.
  unfold knownOrFallback, JsObject.get. rewrite regionMultipliers_lookup.
  split.
  - intros [Hin | Hund].
    + unfold regions in Hin. unfold JsObject.Object_prototype. set_unfold.
      intros Hp.
      destruct Hin as [-> | [-> | [-> | [-> | []]]]];
        intuition discriminate.
    + repeat (case_decide; [discriminate Hund|]).
      case_bool_decide; [discriminate Hund | assumption].
  - intros Hp. unfold regions.
    repeat (case_decide; [left; set_solver|]).
    right. rewrite bool_decide_eq_false_2 by assumption. reflexivity.
Qed.

Lemma resolved_multiplier (values : FormValue) :
  knownOrFallback (region values) ->
  regionMultiplier values ∈ [1.2%float; 1.1%float; 1.05%float; 1.0%float].
Proof.
  intros [Hin | Hund].
  - unfold regions in Hin. unfold regionMultiplier.
    set_unfold.
    destruct Hin as [-> | [-> | [-> | [-> | []]]]]; vm_compute; tauto.
  - rewrite (unknown_region_fallback _ Hund). set_solver.
Qed.

(** *** The price formula *)

(** The priority tier of an offer and the price formula in the words of the
    specification: a fifth factor [1 - tierDiscountRate], 5% for VIP and
    nothing for LOW and STANDARD, applied after the premium surcharge. *)
Definition spec_tierDiscountRate (tier : PriorityLevel) : Js.number :=
  match tier with
  | VIP => 0.05%float
  | LOW | STANDARD => 0%float
  end.

Definition premiumMultiplier (values : FormValue) : Js.number :=
  if premium_48h values then 1.20%float else 1%float.

Definition spec_finalPrice (values : FormValue) (tier : PriorityLevel)
  : Js.number :=
  round2 (basePrice values * (1 - discountRate values)
          * regionMultiplier values * premiumMultiplier values
          * (1 - spec_tierDiscountRate tier))%float.

Definition sampleValues (n : Js.number) (r : string) (p : bool) : FormValue :=
  {| company_id := Some 1%float; employees_count := n; region := r;
     premium_48h := p;
     ml_feature_avg_order_value := 20000%float;
     ml_feature_offers_count := 0%float |}.

(** C1, as stated, fails: for 100 employees in region Inne without premium
    the method returns 9000, whereas the stated formula with the VIP tier
    discount gives 8550. The method takes no tier and applies no tier
    discount. *)
Lemma estimate_has_no_tier_discount :
  ~ (forall values tier,
        (0 <? employees_count values)%float = true ->
        calculateLocalEstimate values = spec_finalPrice values tier).
Proof.
  intros H.
  specialize (H (sampleValues 100 "Inne" false) VIP eq_refl).
  revert H. apply float_neq. vm_compute. reflexivity.
Qed.

(** C1 (amended): for every input the estimate is
    [basePrice * (1 - discountRate) * regionMultiplier], multiplied by 1.20
    when the premium flag is set, the factors applied in the order volume,
    region, premium; no tier discount follows; and the only rounding is the
    final [Math.round(price * 100) / 100]. With the premium flag set the
    result is the four-factor product of the specification without its tier
    factor. *)
Theorem estimate_cascade (values : FormValue) :
  calculateLocalEstimate values =
    round2 (applyPremium values
              (basePrice values * (1 - discountRate values)
               * regionMultiplier values)%float)
  /\ (premium_48h values = true ->
      calculateLocalEstimate values =
        round2 (basePrice values * (1 - discountRate values)
                * regionMultiplier values * premiumMultiplier values)%float)
  /\ (premium_48h values = false ->
      calculateLocalEstimate values =
        round2 (basePrice values * (1 - discountRate values)
                * regionMultiplier values)%float).
Proof.
  split; [apply estimate_unfold|].
  split; intros Hp; rewrite estimate_unfold;
    unfold applyPremium, premiumMultiplier; rewrite Hp; reflexivity.
Qed.

Lemma estimate_cascade_witness :
  calculateLocalEstimate (sampleValues 250 "Mazowieckie" true) = 30600%float.
Proof.
  destruct (estimate_cascade (sampleValues 250 "Mazowieckie" true))
    as (_ & Hp & _).
  rewrite (Hp eq_refl). vm_compute. reflexivity.
Defined.

(** *** The quantity discount *)

(** The four ranges of the employee count, as comparisons of doubles. *)
Definition over200 (n : Js.number) : bool := (200 <? n)%float.
Definition over50 (n : Js.number) : bool := (50 <? n)%float && (n <=? 200)%float.
Definition over10 (n : Js.number) : bool := (10 <? n)%float && (n <=? 50)%float.
Definition upTo10 (n : Js.number) : bool := (n <=? 10)%float.

Lemma leb_10_50 (n : Js.number) :
  (n <=? 10)%float = true -> (n <=? 50)%float = true.
Proof. intros H. apply (leb_trans n 10 50 H). reflexivity. Qed.

Lemma leb_50_200 (n : Js.number) :
  (n <=? 50)%float = true -> (n <=? 200)%float = true.
Proof. intros H. apply (leb_trans n 50 200 H). reflexivity. Qed.

Lemma discountRate_ranges (values : FormValue) :
  let n := employees_count values in
  (over200 n = true -> discountRate values = 0.15%float)
  /\ (over50 n = true -> discountRate values = 0.10%float)
  /\ (over10 n = true -> discountRate values = 0.05%float)
  /\ (upTo10 n = true -> discountRate values = 0%float).
Proof.
  unfold over200, over50, over10, upTo10, discountRate. cbv zeta.
  repeat split.
  - intros ->. reflexivity.
  - intros [H1 H2]%andb_prop. rewrite (leb_ltb_false _ _ H2), H1. reflexivity.
  - intros [H1 H2]%andb_prop.
    rewrite (leb_ltb_false _ _ (leb_50_200 _ H2)), (leb_ltb_false _ _ H2), H1.
    reflexivity.
  - intros H.
    rewrite (leb_ltb_false _ _ (leb_50_200 _ (leb_10_50 _ H))),
      (leb_ltb_false _ _ (leb_10_50 _ H)), (leb_ltb_false _ _ H).
    reflexivity.
Qed.

(** Every count that is a number lies in exactly one of the four ranges. *)
Lemma ranges_partition (n : Js.number) :
  PrimFloat.is_nan n = false ->
  Nat.b2n (over200 n) + Nat.b2n (over50 n) + Nat.b2n (over10 n)
  + Nat.b2n (upTo10 n) = 1.
Proof.
  intros Hn. unfold over200, over50, over10, upTo10.
  destruct (200 <? n)%float eqn:H200.
  - pose proof (ltb_leb_false _ _ H200) as L200.
    assert (L50 : (n <=? 50)%float = false).
    { destruct (n <=? 50)%float eqn:E; [|reflexivity].
      rewrite (leb_50_200 _ E) in L200. discriminate. }
    assert (L10 : (n <=? 10)%float = false).
    { destruct (n <=? 10)%float eqn:E; [|reflexivity].
      rewrite (leb_10_50 _ E) in L50. discriminate. }
    rewrite L200, L50, L10, !andb_false_r. reflexivity.
  - rewrite (not_ltb_leb 200 n eq_refl Hn H200).
    destruct (50 <? n)%float eqn:H50.
    + pose proof (ltb_leb_false _ _ H50) as L50.
      assert (L10 : (n <=? 10)%float = false).
      { destruct (n <=? 10)%float eqn:E; [|reflexivity].
        rewrite (leb_10_50 _ E) in L50. discriminate. }
      rewrite L50, L10, !andb_false_r. reflexivity.
    + rewrite (not_ltb_leb 50 n eq_refl Hn H50).
      destruct (10 <? n)%float eqn:H10.
      * rewrite (ltb_leb_false _ _ H10). reflexivity.
      * rewrite (not_ltb_leb 10 n eq_refl Hn H10). reflexivity.
Qed.

(** A count for which none of the three thresholds is exceeded, NaN
    included, gets no discount. *)
Lemma discountRate_otherwise (values : FormValue) :
  let n := employees_count values in
  over200 n = false -> over50 n = false -> over10 n = false ->
  discountRate values = 0%float.
Proof.
  cbv zeta. unfold over200, over50, over10, discountRate.
  intros H200 H50 H10. rewrite H200.
  destruct (50 <? employees_count values)%float eqn:G50.
  { pose proof (ltb_not_nan_r _ _ G50) as Hn.
    rewrite (not_ltb_leb 200 _ eq_refl Hn H200) in H50. discriminate. }
  destruct (10 <? employees_count values)%float eqn:G10; [|reflexivity].
  pose proof (ltb_not_nan_r _ _ G10) as Hn.
  rewrite (not_ltb_leb 50 _ eq_refl Hn G50) in H10. discriminate.
Qed.

(** C3: the quantity discount depends on the employee count alone; a count
    above 200 gives 15%, otherwise a count above 50 gives 10%, otherwise a
    count above 10 gives 5%, otherwise 0%; a count that is a number lies in
    exactly one of the four ranges, so exactly one rate applies; and the
    rate is applied to the base price, as the factor [1 - discountRate]
    that precedes the region and premium steps. *)
Theorem volume_discount_tiers (values : FormValue) :
  let n := employees_count values in
  (forall other, employees_count other = n ->
                 discountRate other = discountRate values)
  /\ (over200 n = true -> discountRate values = 0.15%float)
  /\ (over50 n = true -> discountRate values = 0.10%float)
  /\ (over10 n = true -> discountRate values = 0.05%float)
  /\ (upTo10 n = true -> discountRate values = 0%float)
  /\ (over200 n = false -> over50 n = false -> over10 n = false ->
      discountRate values = 0%float)
  /\ (PrimFloat.is_nan n = false ->
      Nat.b2n (over200 n) + Nat.b2n (over50 n) + Nat.b2n (over10 n)
      + Nat.b2n (upTo10 n) = 1)
  /\ calculateLocalEstimate values =
       round2 (applyPremium values
                 (basePrice values * (1 - discountRate values)
                  * regionMultiplier values)%float).
Proof.
  cbv zeta. split.
  { intros other H. unfold discountRate. rewrite H. reflexivity. }
  pose proof (discountRate_ranges values) as (H1 & H2 & H3 & H4).
  pose proof (discountRate_otherwise values) as H5.
  repeat split; try assumption.
  apply ranges_partition.
Qed.

Lemma volume_discount_tiers_witness :
  discountRate (sampleValues 51 "Inne" false) = 0.10%float
  /\ discountRate (sampleValues 50 "Inne" false) = 0.05%float
  /\ discountRate (sampleValues 201 "Inne" false) = 0.15%float
  /\ discountRate (sampleValues 10 "Inne" false) = 0%float.
Proof.
  pose proof (volume_discount_tiers (sampleValues 51 "Inne" false))
    as (_ & _ & H51 & _).
  pose proof (volume_discount_tiers (sampleValues 50 "Inne" false))
    as (_ & _ & _ & H50 & _).
  pose proof (volume_discount_tiers (sampleValues 201 "Inne" false))
    as (_ & H201 & _).
  pose proof (volume_discount_tiers (sampleValues 10 "Inne" false))
    as (_ & _ & _ & _ & H10 & _).
  split; [apply H51; reflexivity|].
  split; [apply H50; reflexivity|].
  split; [apply H201; reflexivity | apply H10; reflexivity].
Defined.

(** *** The base price *)

Definition base_price_exact (n : Z) : bool :=
  PrimFloat.Leibniz.eqb (Js.of_Z n * 100)%float (Js.of_Z (n * 100)).

Lemma base_price_exact_for_all_counts :
  forallb base_price_exact (Zrange 1 (Z.to_nat 10000)) = true.
Proof. vm_compute. reflexivity. Qed.

(** C6: the base price is [employees_count * unitRate] with the constant
    [unitRate = 100]; it is the quantity to which the discount and the
    multipliers are then applied; and for a whole number of employees that
    the form admits (1 to 10000) the product is exact: no rounding occurs. *)
Theorem base_price_is_count_times_unit_rate (values : FormValue) :
  basePrice values = (employees_count values * unitRate)%float
  /\ unitRate = 100%float
  /\ calculateLocalEstimate values =
       round2 (applyPremium values
                 (basePrice values * (1 - discountRate values)
                  * regionMultiplier values)%float)
  /\ (forall n : Z,
        (1 <= n <= 10000)%Z -> employees_count values = Js.of_Z n ->
        basePrice values = Js.of_Z (n * 100)).
Proof.
  repeat split. intros n Hn Hc. unfold basePrice. rewrite Hc.
  apply FloatAxioms.Leibniz.eqb_spec.
  apply (forallb_Zrange base_price_exact 1 (Z.to_nat 10000) n
           base_price_exact_for_all_counts).
  lia.
Qed.

Lemma base_price_is_count_times_unit_rate_witness :
  basePrice (sampleValues 250 "Mazowieckie" true) = 25000%float.
Proof.
  destruct (base_price_is_count_times_unit_rate
              (sampleValues 250 "Mazowieckie" true)) as (_ & _ & _ & H).
  apply (H 250%Z); [lia | reflexivity].
Defined.

(** *** Crossing a discount threshold *)

(** The estimate as a function of the count, the multiplier the region
    resolved to, and the premium flag. *)
Definition estimateFor (n m : Js.number) (p : bool) : Js.number :=
  let rate :=
    if (200 <? n)%float then 0.15%float
    else if (50 <? n)%float then 0.10%float
    else if (10 <? n)%float then 0.05%float
    else 0%float in
  let price := (n * 100 * (1 - rate) * m)%float in
  round2 (if p then (price * 1.20)%float else price).

Lemma estimate_is_estimateFor (v : FormValue) :
  calculateLocalEstimate v =
    estimateFor (employees_count v) (regionMultiplier v) (premium_48h v).
Proof. reflexivity. Qed.

Definition perEmployeeFor (n m : Js.number) (p : bool) : Js.number :=
  (estimateFor n m p / n)%float.

Lemma perEmployeePrice_with_employees (v : FormValue) (n : Js.number) :
  perEmployeePrice (with_employees v n) =
    perEmployeeFor n (regionMultiplier v) (premium_48h v).
Proof. reflexivity. Qed.

(** The three crossings, for a given multiplier and premium flag. *)
Definition crossings_decrease (m : Js.number) (p : bool) : bool :=
  (perEmployeeFor 11 m p <? perEmployeeFor 9 m p)%float
  && (perEmployeeFor 51 m p <? perEmployeeFor 49 m p)%float
  && (perEmployeeFor 201 m p <? perEmployeeFor 199 m p)%float.

Lemma crossings_decrease_resolved (m : Js.number) (p : bool) :
  m ∈ [1.2%float; 1.1%float; 1.05%float; 1.0%float] ->
  crossings_decrease m p = true.
Proof.
  intros Hm. set_unfold.
  destruct Hm as [-> | [-> | [-> | [-> | []]]]]; destruct p;
    vm_compute; reflexivity.
Qed.

(** X17: with the region and the premium flag (and every other field) held
    fixed, the estimate per employee is strictly smaller for 11 employees
    than for 9, for 51 than for 49, and for 201 than for 199, for every
    region for which the lookup resolves: a listed region, or a string for
    which the table has nothing and the fallback applies. *)
Theorem threshold_crossing_lowers_unit_price (v : FormValue) :
  knownOrFallback (region v) ->
  (perEmployeePrice (with_employees v 11)
     <? perEmployeePrice (with_employees v 9))%float = true
  /\ (perEmployeePrice (with_employees v 51)
        <? perEmployeePrice (with_employees v 49))%float = true
  /\ (perEmployeePrice (with_employees v 201)
        <? perEmployeePrice (with_employees v 199))%float = true.
Proof.
  intros Hr. rewrite !perEmployeePrice_with_employees.
  pose proof (crossings_decrease_resolved _ (premium_48h v)
                (resolved_multiplier v Hr)) as H.
  unfold crossings_decrease in H.
  apply andb_prop in H as [H H3]. apply andb_prop in H as [H1 H2].
  auto.
Qed.

Lemma threshold_crossing_lowers_unit_price_witness :
  knownOrFallback "Mazowieckie"
  /\ (perEmployeePrice (sampleValues 11 "Mazowieckie" true)
        <? perEmployeePrice (sampleValues 9 "Mazowieckie" true))%float = true.
Proof.
  assert (Hk : knownOrFallback "Mazowieckie").
  { left. unfold regions. set_solver. }
  split; [exact Hk|].
  exact (proj1 (threshold_crossing_lowers_unit_price
                  (sampleValues 100 "Mazowieckie" true) Hk)).
Defined.

(** C4 at the failing input: for the region [constructor], a property name
    of [Object.prototype], the lookup yields the inherited function and the
    estimate is NaN for every count. The estimate per employee is NaN for 9
    and for 11 employees, so it is not smaller for 11 than for 9, and
    likewise for 49 and 51 and for 199 and 201, with or without premium.
    With the fallback 1.0, which the unlisted region Pomorskie gets, the
    crossing from 9 to 11 lowers it from 100 to 95. *)
Theorem threshold_crossing_fails_on_inherited_member :
  let v := sampleValues 100 "constructor" false in
  let p := sampleValues 100 "constructor" true in
  let w := sampleValues 100 "Pomorskie" false in
  PrimFloat.is_nan (perEmployeePrice (with_employees v 9)) = true
  /\ PrimFloat.is_nan (perEmployeePrice (with_employees v 11)) = true
  /\ (perEmployeePrice (with_employees v 11)
        <? perEmployeePrice (with_employees v 9))%float = false
  /\ (perEmployeePrice (with_employees v 51)
        <? perEmployeePrice (with_employees v 49))%float = false
  /\ (perEmployeePrice (with_employees v 201)
        <? perEmployeePrice (with_employees v 199))%float = false
  /\ (perEmployeePrice (with_employees p 11)
        <? perEmployeePrice (with_employees p 9))%float = false
  /\ perEmployeePrice (with_employees w 9) = 100%float
  /\ perEmployeePrice (with_employees w 11) = 95%float.
Proof. cbv zeta. repeat split; vm_compute; reflexivity. Qed.

(** *** The region lookup *)

(** The multiplier of each listed region, and the fallback for a string
    that is neither listed nor the name of a member of [Object.prototype]. *)
Lemma listed_region_multipliers (values : FormValue) :
  (region values = "Mazowieckie" -> regionMultiplier values = 1.2%float)
  /\ (region values = "Śląskie" -> regionMultiplier values = 1.1%float)
  /\ (region values = "Małopolskie" -> regionMultiplier values = 1.05%float)
  /\ (region values = "Inne" -> regionMultiplier values = 1.0%float).
Proof.
  repeat split; intros H; unfold regionMultiplier; rewrite H; reflexivity.
Qed.

Lemma unlisted_region_fallback (values : FormValue) :
  region values ∉ regions ->
  region values ∉ JsObject.Object_prototype ->
  regionMultiplier values = 1.0%float.
Proof.
  intros Hr Hp. apply unknown_region_fallback.
  unfold JsObject.get. rewrite regionMultipliers_lookup.
  unfold regions in Hr.
  repeat (case_decide; [exfalso; apply Hr; set_solver|]).
  rewrite bool_decide_eq_false_2 by assumption. reflexivity.
Qed.

(** X2: a listed region gets the multiplier of the table, and every string
    that is neither listed nor the name of a member of [Object.prototype]
    gets the fallback 1.0. *)
Theorem region_lookup_resolves (values : FormValue) :
  (region values = "Mazowieckie" -> regionMultiplier values = 1.2%float)
  /\ (region values = "Śląskie" -> regionMultiplier values = 1.1%float)
  /\ (region values = "Małopolskie" -> regionMultiplier values = 1.05%float)
  /\ (region values = "Inne" -> regionMultiplier values = 1.0%float)
  /\ (region values ∉ regions ->
      region values ∉ JsObject.Object_prototype ->
      regionMultiplier values = 1.0%float).
Proof.
  pose proof (listed_region_multipliers values) as (H1 & H2 & H3 & H4).
  repeat split; try assumption. apply unlisted_region_fallback.
Qed.

Lemma region_lookup_resolves_witness :
  regionMultiplier (sampleValues 100 "Pomorskie" false) = 1.0%float
  /\ regionMultiplier (sampleValues 100 "Śląskie" false) = 1.1%float.
Proof.
  destruct (region_lookup_resolves (sampleValues 100 "Pomorskie" false))
    as (_ & _ & _ & _ & Hf).
  destruct (region_lookup_resolves (sampleValues 100 "Śląskie" false))
    as (_ & Hs & _).
  split; [|apply Hs; reflexivity].
  apply Hf; simpl; unfold regions, JsObject.Object_prototype;
    set_unfold; intuition discriminate.
Defined.

(** C5 at the failing input: [regionMultipliers["constructor"]] is not
    [undefined] but the function inherited from [Object.prototype]; it is
    truthy, so the fallback [1.0] is not taken, and the estimate for 100
    employees is NaN where the fallback gives 9000, as it does for the
    unlisted region Pomorskie. *)
Theorem inherited_member_defeats_fallback :
  ("constructor" ∉ regions)
  /\ JsObject.get regionMultipliers "constructor"
     = JsObject.Builtin "constructor"
  /\ PrimFloat.is_nan (regionMultiplier (sampleValues 100 "constructor" false))
     = true
  /\ PrimFloat.is_nan
       (calculateLocalEstimate (sampleValues 100 "constructor" false)) = true
  /\ calculateLocalEstimate (sampleValues 100 "Pomorskie" false) = 9000%float.
Proof.
  split.
  { unfold regions. intros H. set_unfold. intuition discriminate. }
  repeat split; vm_compute; reflexivity.
Qed.

(** *** The estimate, to the cent *)

(** The same price in exact integer arithmetic, in hundredths of the
    currency unit: [n * 100] units, times [(100 - rate) / 100], times the
    region multiplier in percent over 100, times 120/100 with premium. *)
Definition ratePercent (n : Z) : Z :=
  if (200 <? n)%Z then 15
  else if (50 <? n)%Z then 10
  else if (10 <? n)%Z then 5
  else 0.

Definition multiplierPercent (r : string) : Z :=
  if decide (r = "Mazowieckie") then 120
  else if decide (r = "Śląskie") then 110
  else if decide (r = "Małopolskie") then 105
  else 100.

Definition premiumPercent (p : bool) : Z := if p then 120 else 100.

Definition exactCents (n m100 : Z) (p : bool) : Z :=
  (n * (100 - ratePercent n) * m100 * premiumPercent p / 100)%Z.

Lemma div_100_exact (n a b c : Z) :
  ((a * b * c) mod 100 = 0 ->
   100 * (n * a * b * c / 100) = n * a * b * c)%Z.
Proof.
  intros H. apply Z.mod_divide in H; [|lia]. destruct H as [k Hk].
  replace (n * a * b * c)%Z with (n * k * 100)%Z
    by (rewrite <- !Z.mul_assoc, (Z.mul_assoc a), Hk; ring).
  rewrite Z.div_mul by lia. ring.
Qed.

(** The division by 100 is exact: the price is a whole number of cents. *)
Lemma exactCents_exact (n m100 : Z) (p : bool) :
  m100 ∈ [120; 110; 105; 100]%Z ->
  (100 * exactCents n m100 p
   = n * (100 - ratePercent n) * m100 * premiumPercent p)%Z.
Proof.
  intros Hm. unfold exactCents, ratePercent, premiumPercent. set_unfold.
  destruct Hm as [-> | [-> | [-> | [-> | []]]]]; destruct p;
    repeat case_match; apply div_100_exact; reflexivity.
Qed.

Definition multipliers : list (Js.number * Z) :=
  [ (1.2%float, 120%Z); (1.1%float, 110%Z); (1.05%float, 105%Z);
    (1.0%float, 100%Z) ].

(** The method's doubles against the exact cents, for one count. *)
Definition exact_for_count (n : Z) : bool :=
  forallb
    (fun mp : Js.number * Z =>
       forallb
         (fun p : bool =>
            PrimFloat.Leibniz.eqb
              (estimateFor (Js.of_Z n) (fst mp) p)
              (Js.of_Z (exactCents n (snd mp) p) / 100)%float)
         [true; false])
    multipliers.

Lemma exact_for_all_counts :
  forallb exact_for_count (Zrange 1 (Z.to_nat 10000)) = true.
Proof. vm_compute. reflexivity. Qed.

Lemma resolved_multiplier_percent (v : FormValue) :
  knownOrFallback (region v) ->
  (regionMultiplier v, multiplierPercent (region v)) ∈ multipliers.
Proof.
  unfold multipliers. intros [Hin | Hund].
  - unfold regions in Hin. unfold regionMultiplier. set_unfold.
    destruct Hin as [-> | [-> | [-> | [-> | []]]]]; vm_compute; tauto.
  - rewrite (unknown_region_fallback _ Hund).
    unfold JsObject.get in Hund. rewrite regionMultipliers_lookup in Hund.
    unfold multiplierPercent.
    repeat (case_decide; [discriminate Hund|]). set_solver.
Qed.

(** X1: for every whole number of employees that the form admits (1 to
    10000), every region for which the lookup resolves and either premium flag,
    the estimate is the exact price: the double nearest to the whole number
    of cents, divided by 100. The rounding errors of the intermediate
    products never reach the result. *)
Theorem estimate_exact_to_the_cent (v : FormValue) (n : Z) :
  (1 <= n <= 10000)%Z ->
  employees_count v = Js.of_Z n ->
  knownOrFallback (region v) ->
  calculateLocalEstimate v =
    (Js.of_Z (exactCents n (multiplierPercent (region v)) (premium_48h v))
     / 100)%float.
Proof.
  intros Hn Hc Hr.
  rewrite estimate_is_estimateFor, Hc.
  assert (Hall : exact_for_count n = true).
  { apply (forallb_Zrange exact_for_count 1 (Z.to_nat 10000) n
             exact_for_all_counts). lia. }
  unfold exact_for_count in Hall.
  rewrite forallb_forall in Hall.
  pose proof (resolved_multiplier_percent v Hr) as Hm.
  apply list_elem_of_In in Hm.
  specialize (Hall _ Hm). cbv beta in Hall.
  rewrite forallb_forall in Hall.
  assert (Hp : In (premium_48h v) [true; false])
    by (destruct (premium_48h v); simpl; auto).
  specialize (Hall _ Hp).
  apply FloatAxioms.Leibniz.eqb_spec in Hall. exact Hall.
Qed.

Lemma estimate_exact_to_the_cent_witness :
  calculateLocalEstimate (sampleValues 250 "Mazowieckie" true)
  = (Js.of_Z 3060000 / 100)%float.
Proof.
  apply (estimate_exact_to_the_cent (sampleValues 250 "Mazowieckie" true) 250).
  - lia.
  - reflexivity.
  - left. unfold regions. set_solver.
Defined.

End CalculatorFacts.

(** ** Score classes *)

Module ScoreFacts.
Import OffersList.

(** The priority ranges in the words of the specification (they are also
    the ranges of the repository's README: 0-40 LOW, 41-70 STANDARD, 71-100
    VIP): [[0,40]] is LOW, [(40,70]] is STANDARD, [(70,100]] is VIP. *)
Definition spec_tier (score : Js.number) : option PriorityLevel :=
  if (0 <=? score)%float && (score <=? 40)%float then Some LOW
  else if (40 <? score)%float && (score <=? 70)%float then Some STANDARD
  else if (70 <? score)%float && (score <=? 100)%float then Some VIP
  else None.

(** The tier that a style class, or a colour, stands for. *)
Definition tier_of_class (class : string) : option PriorityLevel :=
  if decide (class = "score-low") then Some LOW
  else if decide (class = "score-medium") then Some STANDARD
  else if decide (class = "score-high") then Some VIP
  else None.

Definition tier_of_color (color : string) : option PriorityLevel :=
  if decide (color = "#f44336") then Some LOW
  else if decide (color = "#ff9800") then Some STANDARD
  else if decide (color = "#4caf50") then Some VIP
  else None.

(** Both functions are the same chain of comparisons. *)
Lemma color_follows_class (score : Js.number) :
  tier_of_color (getScoreColor score)
  = tier_of_class (Calculator.getScoreClass score).
Proof.
  unfold getScoreColor, Calculator.getScoreClass.
  destruct (70 <=? score)%float; [reflexivity|].
  destruct (40 <=? score)%float; reflexivity.
Qed.

(** The partition that the code implements: [score >= 70] is high,
    [40 <= score < 70] is medium, everything else is low. *)
Lemma class_partition (score : Js.number) :
  ((70 <=? score)%float = true ->
   Calculator.getScoreClass score = "score-high")
  /\ ((40 <=? score)%float = true -> (score <? 70)%float = true ->
      Calculator.getScoreClass score = "score-medium")
  /\ ((score <? 40)%float = true ->
      Calculator.getScoreClass score = "score-low").
Proof.
  unfold Calculator.getScoreClass. repeat split.
  - intros ->. reflexivity.
  - intros H40 H70. rewrite (ltb_leb_false _ _ H70), H40. reflexivity.
  - intros H40.
    assert (H70 : (70 <=? score)%float = false).
    { destruct (70 <=? score)%float eqn:E; [|reflexivity].
      pose proof (leb_trans 40 70 score eq_refl E) as H.
      rewrite (ltb_leb_false _ _ H40) in H. discriminate. }
    rewrite H70, (ltb_leb_false _ _ H40). reflexivity.
Qed.

(** X3: away from the two boundaries the code and the stated ranges agree:
    a score of the scale other than exactly 40 and exactly 70 gets the class
    and the colour of its tier. *)
Theorem classes_agree_off_boundaries (score : Js.number) (t : PriorityLevel) :
  spec_tier score = Some t ->
  score <> 40%float -> score <> 70%float ->
  tier_of_class (Calculator.getScoreClass score) = Some t
  /\ tier_of_color (getScoreColor score) = Some t.
Proof.
  intros Ht N40 N70. rewrite color_follows_class.
  cut (tier_of_class (Calculator.getScoreClass score) = Some t); [tauto|].
  revert Ht. unfold spec_tier, Calculator.getScoreClass. intros Ht.
  destruct ((0 <=? score)%float && (score <=? 40)%float) eqn:Low.
  { apply andb_prop in Low as [_ L40].
    assert (H40 : (40 <=? score)%float = false).
    { destruct (40 <=? score)%float eqn:E; [|reflexivity].
      destruct N40.
      apply (leb_antisym_finite score 40 _ _ _ eq_refl L40 E). }
    assert (H70 : (70 <=? score)%float = false).
    { destruct (70 <=? score)%float eqn:E; [|reflexivity].
      pose proof (leb_trans _ _ _ E L40). discriminate. }
    rewrite H70, H40. exact Ht. }
  destruct ((40 <? score)%float && (score <=? 70)%float) eqn:Mid.
  { apply andb_prop in Mid as [G40 L70].
    assert (H70 : (70 <=? score)%float = false).
    { destruct (70 <=? score)%float eqn:E; [|reflexivity].
      destruct N70.
      apply (leb_antisym_finite score 70 _ _ _ eq_refl L70 E). }
    rewrite H70, (ltb_leb _ _ G40). exact Ht. }
  destruct ((70 <? score)%float && (score <=? 100)%float) eqn:High;
    [|discriminate].
  apply andb_prop in High as [G70 _].
  rewrite (ltb_leb _ _ G70). exact Ht.
Qed.

Lemma classes_agree_off_boundaries_witness :
  tier_of_class (Calculator.getScoreClass 55) = Some STANDARD
  /\ tier_of_color (getScoreColor 55) = Some STANDARD.
Proof.
  apply (classes_agree_off_boundaries 55 STANDARD);
    [reflexivity | apply float_neq; reflexivity
     | apply float_neq; reflexivity].
Defined.

(** Every score of the scale is given a tier by the stated ranges. *)
Lemma spec_tier_total (score : Js.number) :
  (0 <=? score)%float = true -> (score <=? 100)%float = true ->
  is_Some (spec_tier score).
Proof.
  intros H0 H100. unfold spec_tier. rewrite H0, H100. simpl.
  pose proof (leb_not_nan_l _ _ H100) as Hn.
  destruct (score <=? 40)%float eqn:L40; [eauto|].
  rewrite (not_leb_ltb score 40 Hn eq_refl L40). simpl.
  destruct (score <=? 70)%float eqn:L70; [eauto|].
  rewrite (not_leb_ltb score 70 Hn eq_refl L70). simpl. eauto.
Qed.

(** C2 at the failing inputs: a score of exactly 40 belongs to LOW and a
    score of exactly 70 to STANDARD by the stated ranges, but
    [getScoreClass] and [getScoreColor] test [score >= 40] and
    [score >= 70], so 40 is classified medium (STANDARD) and 70 high
    (VIP). *)
Theorem boundary_scores_classified_upwards :
  spec_tier 40 = Some LOW
  /\ Calculator.getScoreClass 40 = "score-medium"
  /\ getScoreColor 40 = "#ff9800"
  /\ spec_tier 70 = Some STANDARD
  /\ Calculator.getScoreClass 70 = "score-high"
  /\ getScoreColor 70 = "#4caf50".
Proof. repeat split. Qed.

End ScoreFacts.

(** ** [calculate()] on an invalid form *)

Module CalculateFacts.
Import Calculator.

Section Invalid.
Variable this : Component.

(** C8: when [pricingForm] is invalid, [calculate()] emits nothing on
    [calculateSubject$] (hence triggers no API request), leaves [result]
    (and [loading]) unchanged, and changes the form only by setting the
    [touched] flags: the controls keep their status, the group keeps its
    value and status. *)
Theorem invalid_form_only_marks_touched :
  invalid (pricingForm this) = true ->
  let after := calculate this in
  emitted after = emitted this
  /\ result after = result this
  /\ loading after = loading this
  /\ streamActive after = streamActive this
  /\ pricingForm after = markAllAsTouched (pricingForm this)
  /\ value (pricingForm after) = value (pricingForm this)
  /\ group_status (pricingForm after) = group_status (pricingForm this)
  /\ (forall get : Controls -> AbstractControl,
        get ∈ [c_company_id; c_employees_count; c_region; c_premium_48h;
               c_ml_feature_avg_order_value; c_ml_feature_offers_count] ->
        status (get (controls (pricingForm after)))
          = status (get (controls (pricingForm this)))
        /\ touched (get (controls (pricingForm after))) = true).
Proof.
  intros Hinv. cbv zeta. unfold calculate. rewrite Hinv. simpl.
  repeat split; set_unfold;
    repeat match goal with
      | H : _ \/ _ |- _ => destruct H
      | H : False |- _ => destruct H
      end; subst; reflexivity.
Qed.

End Invalid.

(** A valid form, for contrast: the value is emitted. *)
Lemma valid_form_emits (this : Component) :
  invalid (pricingForm this) = false ->
  emitted (calculate this) = emitted this ++ [value (pricingForm this)]
  /\ pricingForm (calculate this) = pricingForm this.
Proof. intros H. unfold calculate. rewrite H. split; reflexivity. Qed.

Definition untouched (s : FormControlStatus) : AbstractControl :=
  {| status := s; touched := false |}.

(** The form of the component's test: every field valid except
    [company_id], which is empty. *)
Definition sampleComponent : Component :=
  {| pricingForm :=
       {| controls :=
            {| c_company_id := untouched INVALID;
               c_employees_count := untouched VALID;
               c_region := untouched VALID;
               c_premium_48h := untouched VALID;
               c_ml_feature_avg_order_value := untouched VALID;
               c_ml_feature_offers_count := untouched VALID |};
          value :=
            {| company_id := None; employees_count := 100%float;
               region := "Mazowieckie"; premium_48h := false;
               ml_feature_avg_order_value := 20000%float;
               ml_feature_offers_count := 3%float |};
          group_status := INVALID;
          group_touched := false |};
     result := None;
     loading := false;
     streamActive := true;
     emitted := [] |}.

Lemma invalid_form_only_marks_touched_witness :
  emitted (calculate sampleComponent) = []
  /\ result (calculate sampleComponent) = None.
Proof.
  pose proof (invalid_form_only_marks_touched sampleComponent eq_refl)
    as (He & Hr & _).
  split; [exact He | exact Hr].
Defined.

End CalculateFacts.

(** ** Offer statistics *)

Module StatsFacts.
Import OffersList.

Lemma positive_length {A} (offers : list A) :
  offers <> [] -> (0 <? length offers)%nat = true.
Proof.
  destruct offers; [congruence|]. intros _. reflexivity.
Qed.

(** C9: [calculateStats] never divides by zero: the run in which every
    division checks its divisor never fails and gives the same statistics;
    for an empty list [avgAiScore] is 0, which is not NaN; for a non-empty
    list it is [Math.round] of the sum of the [ai_score] values divided by
    the number of offers. *)
Theorem stats_average_guarded (offers : list Offer) :
  calculateStats_checked offers = Some (calculateStats offers)
  /\ (offers = [] ->
      avgAiScore (calculateStats offers) = 0%float
      /\ PrimFloat.is_nan (avgAiScore (calculateStats offers)) = false)
  /\ (offers <> [] ->
      avgAiScore (calculateStats offers)
      = Js.Math_round
          (fold_left (fun sum o => (sum + ai_score o)%float) offers 0%float
           / Js.of_length (length offers))%float).
Proof.
  split; [|split].
  - unfold calculateStats_checked, calculateStats.
    destruct offers as [|o offers]; reflexivity.
  - intros ->. split; reflexivity.
  - intros Hne. unfold calculateStats. simpl.
    rewrite (positive_length offers Hne). reflexivity.
Qed.

Definition sampleOffer (score : Js.number) (level : PriorityLevel) : Offer :=
  {| id := 1%float; offer_company_id := 1%float;
     offer_employees_count := 100%float;
     offer_region := "Mazowieckie"; offer_premium_48h := false;
     base_price := 10000%float; final_price := 9500%float;
     ai_score := score; ml_score := 80%float; rule_score := 65%float;
     priority_level := level; created_at := "2024-01-01T00:00:00Z" |}.

Lemma stats_average_guarded_witness :
  avgAiScore (calculateStats [sampleOffer 75.5 VIP; sampleOffer 40 LOW])
  = 58%float
  /\ avgAiScore (calculateStats []) = 0%float.
Proof.
  pose proof (stats_average_guarded
                [sampleOffer 75.5 VIP; sampleOffer 40 LOW]) as (_ & _ & Hm).
  pose proof (stats_average_guarded []) as (_ & He & _).
  split.
  - rewrite Hm by discriminate. vm_compute. reflexivity.
  - exact (proj1 (He eq_refl)).
Defined.

End StatsFacts.

(** ** The stored session *)

Module AuthFacts.
Import Auth.

Definition key : string := "currentUser".

Section Cases.
Variable JSON_parse : string -> option JsValue.
Variable ToNumber_other : JsValue -> Outcome Js.number.
Variable now : Js.number.
Variable ls : Storage.

Let run := getStoredUser JSON_parse ToNumber_other now ls.

(** Nothing stored, or the empty string: [null], storage untouched. *)
Lemma nothing_stored :
  ls !! key = None \/ ls !! key = Some "" ->
  run = (Return None, ls).
Proof.
  unfold run, getStoredUser, try_catch, bind, getItem, key.
  intros [-> | ->]; reflexivity.
Qed.

(** A non-empty text that [JSON.parse] rejects: [null], entry removed. *)
Lemma unparsable_text (text : string) :
  ls !! key = Some text -> text <> "" -> JSON_parse text = None ->
  run = (Return None, delete key ls).
Proof.
  unfold run, getStoredUser, try_catch, bind, getItem, key.
  intros -> Hne Hp. simpl.
  rewrite bool_decide_eq_false_2 by assumption.
  rewrite Hp. reflexivity.
Qed.

(** The text parses to [null]: reading [expiresAt] throws, the handler
    removes the entry. *)
Lemma parsed_null (text : string) :
  ls !! key = Some text -> text <> "" -> JSON_parse text = Some JNull ->
  run = (Return None, delete key ls).
Proof.
  unfold run, getStoredUser, try_catch, bind, getItem, key.
  intros -> Hne Hp. simpl.
  rewrite bool_decide_eq_false_2 by assumption.
  rewrite Hp. reflexivity.
Qed.

(** The parsed value carries no expiry, or a falsy one ([null], [0],
    [false], the empty string): it is returned, storage untouched. *)
Lemma no_expiry (text : string) (user : JsValue) :
  ls !! key = Some text -> text <> "" -> JSON_parse text = Some user ->
  user <> JNull ->
  ToBoolean (expiresAt_of user) = false ->
  run = (Return (Some user), ls).
Proof.
  unfold run, getStoredUser, try_catch, bind, getItem, key.
  intros -> Hne Hp Hu Hf. simpl.
  rewrite bool_decide_eq_false_2 by assumption.
  rewrite Hp. destruct user; try congruence; simpl in *; rewrite ?Hf; reflexivity.
Qed.

(** The parsed value carries a numeric expiry other than 0: it is
    returned when [Date.now() > expiresAt] is false, and otherwise the
    entry is removed and the result is [null]. *)
Lemma numeric_expiry (text : string) (user : JsValue) (e : Js.number) :
  ls !! key = Some text -> text <> "" -> JSON_parse text = Some user ->
  expiresAt_of user = Some (JNumber e) ->
  Js.number_truthy e = true ->
  run = if (e <? now)%float then (Return None, delete key ls)
        else (Return (Some user), ls).
Proof.
  unfold run, getStoredUser, try_catch, bind, getItem, key.
  intros -> Hne Hp He Ht. simpl.
  rewrite bool_decide_eq_false_2 by assumption.
  rewrite Hp.
  destruct user; try discriminate. simpl in *. rewrite He. simpl.
  rewrite Ht. unfold gt, ToNumber, bind, ret. simpl.
  destruct (e <? now)%float; reflexivity.
Qed.

(** [Date.now() > expiresAt] does not touch the storage. *)
Definition expired (v : option JsValue) : Outcome bool :=
  fst (gt ToNumber_other now v ls).

Lemma gt_pure (v : option JsValue) (ls0 : Storage) :
  gt ToNumber_other now v ls0 = (fst (gt ToNumber_other now v ls0), ls0).
Proof.
  unfold gt, ToNumber, bind, ret.
  destruct v as [[| | | | |]|]; simpl; try reflexivity;
    destruct (ToNumber_other _); reflexivity.
Qed.

(** The method, case by case. *)
Lemma getStoredUser_cases :
  run =
    match ls !! key with
    | None => (Return None, ls)
    | Some text =>
        if bool_decide (text = "") then (Return None, ls)
        else match JSON_parse text with
             | None | Some JNull => (Return None, delete key ls)
             | Some user =>
                 if ToBoolean (expiresAt_of user) then
                   match expired (expiresAt_of user) with
                   | Return false => (Return (Some user), ls)
                   | Return true | Throw _ => (Return None, delete key ls)
                   end
                 else (Return (Some user), ls)
             end
    end.
Proof.
  unfold run, expired, getStoredUser, try_catch, bind, getItem, key.
  destruct (ls !! "currentUser") as [text|]; simpl; [|reflexivity].
  case_bool_decide; [reflexivity|].
  destruct (JSON_parse text) as [user|]; [|reflexivity].
  destruct user; simpl; try reflexivity.
  destruct (ToBoolean _); [|reflexivity].
  rewrite gt_pure.
  destruct (fst _) as [[]|]; reflexivity.
Qed.

Lemma expired_number (e : Js.number) :
  expired (Some (JNumber e)) = Return (e <? now)%float.
Proof. reflexivity. Qed.

(** In every case the method returns normally, with [null] or with the
    value that the stored text parses to, and the storage is either
    untouched or has lost the entry. A value is returned only with the
    storage untouched, and a numeric expiry other than 0 that it carries
    is not earlier than [now]. *)
Lemma always_returns :
  exists r ls', run = (Return r, ls')
    /\ (ls' = ls \/ ls' = delete key ls)
    /\ (forall user, r = Some user ->
          ls' = ls
          /\ user <> JNull
          /\ (exists text, ls !! key = Some text /\ text <> ""
                           /\ JSON_parse text = Some user)
          /\ (forall e, expiresAt_of user = Some (JNumber e) ->
                        Js.number_truthy e = true ->
                        (e <? now)%float = false)).
Proof.
  rewrite getStoredUser_cases.
  destruct (ls !! key) as [text|] eqn:Hs.
  2:{ eexists _, _. split; [reflexivity|]. split; [auto|]. discriminate. }
  case_bool_decide as Hne.
  { eexists _, _. split; [reflexivity|]. split; [auto|]. discriminate. }
  destruct (JSON_parse text) as [user|] eqn:Hp.
  2:{ eexists _, _. split; [reflexivity|]. split; [auto|]. discriminate. }
  assert (Hgood :
    (ToBoolean (expiresAt_of user) = false
     \/ expired (expiresAt_of user) = Return false) ->
    user <> JNull ->
    forall u, Some user = Some u ->
      ls = ls /\ u <> JNull
      /\ (exists t, Some text = Some t /\ t <> "" /\ JSON_parse t = Some u)
      /\ (forall e, expiresAt_of u = Some (JNumber e) ->
                    Js.number_truthy e = true -> (e <? now)%float = false)).
  { intros Hcase Hnn u [= <-]. split; [reflexivity|]. split; [exact Hnn|].
    split; [exists text; auto|].
    intros e He Ht. rewrite He in Hcase. destruct Hcase as [Hf | Hx].
    - simpl in Hf. congruence.
    - rewrite expired_number in Hx. congruence. }
  destruct user as [|b|n|s|items|props];
    try destruct (ToBoolean _) eqn:Hb;
    try destruct (expired _) as [[]|] eqn:Hx;
    eexists _, _; (split; [reflexivity|]); (split; [auto|]);
    try discriminate; apply Hgood; auto; discriminate.
Qed.

End Cases.

(** *** Sample storage contents *)

Definition dq : string := String (Ascii.ascii_of_nat 34) "".

(** [{"token":"t","role":"admin","expiresAt":N}] with [N] given as text. *)
Definition userText (expiresAt : string) : string :=
  "{" +:+ dq +:+ "token" +:+ dq +:+ ":" +:+ dq +:+ "t" +:+ dq +:+ ","
  +:+ dq +:+ "role" +:+ dq +:+ ":" +:+ dq +:+ "admin" +:+ dq +:+ ","
  +:+ dq +:+ "expiresAt" +:+ dq +:+ ":" +:+ expiresAt +:+ "}".

Definition userValue (expiresAt : Js.number) : JsValue :=
  JObject [("token", JString "t"); ("role", JString "admin");
           ("expiresAt", JNumber expiresAt)].

(** What [JSON.parse] returns for the texts used below; it rejects the
    empty string and [not json]. *)
Definition sampleParse : string -> option JsValue :=
  parse_table
    [ (userText "1700000000000", userValue 1700000000000);
      (userText "0", userValue 0);
      ("null", JNull) ].

Definition sampleToNumber (v : JsValue) : Outcome Js.number := Return nan.

Definition stored (text : string) : Storage := <[key := text]> ∅.

(** *** The claim as stated *)

(** C10 in its own words: the method returns (never throws); whenever the
    entry is absent, or its text is rejected by [JSON.parse], or the parsed
    value carries a numeric [expiresAt] earlier than [now], the result is
    [null] and the entry is gone afterwards; and a returned value is the
    parsed text, its numeric expiry in the future. *)
Definition claim_as_stated
    (JSON_parse : string -> option JsValue)
    (ToNumber_other : JsValue -> Outcome Js.number) : Prop :=
  forall (now : Js.number) (ls : Storage),
  exists r ls',
    getStoredUser JSON_parse ToNumber_other now ls = (Return r, ls')
    /\ ((ls !! key = None
         \/ (exists text, ls !! key = Some text /\ JSON_parse text = None)
         \/ (exists text user e,
               ls !! key = Some text /\ JSON_parse text = Some user
               /\ expiresAt_of user = Some (JNumber e)
               /\ (e <? now)%float = true)) ->
        r = None /\ ls' !! key = None)
    /\ (forall user, r = Some user ->
          exists text, ls !! key = Some text
                       /\ JSON_parse text = Some user
                       /\ forall e, expiresAt_of user = Some (JNumber e) ->
                                    (now <? e)%float = true).

(** C10, as stated, fails: the empty string is text that [JSON.parse]
    rejects, yet for it the method returns [null] at the guard
    [if (!stored) return null], before the [try] body can throw, and the
    entry stays in the storage. *)
Lemma empty_text_is_not_cleared :
  ~ claim_as_stated sampleParse sampleToNumber.
Proof.
  intros H.
  destruct (H 1700000000000%float (stored "")) as (r & ls' & Hrun & Hclear & _).
  rewrite (nothing_stored sampleParse sampleToNumber _ (stored "")) in Hrun
    by (right; reflexivity).
  injection Hrun as <- <-.
  destruct Hclear as [_ Hgone].
  - right; left. exists "". split; reflexivity.
  - discriminate Hgone.
Qed.

(** The other departure: an [expiresAt] of 0 is falsy, so the expiry test
    is skipped and the value is returned although 0 is earlier than
    [now]. *)
Lemma zero_expiry_is_kept :
  getStoredUser sampleParse sampleToNumber 1700000000000%float
    (stored (userText "0"))
  = (Return (Some (userValue 0)), stored (userText "0")).
Proof. vm_compute. reflexivity. Qed.

(** C10 (amended): [getStoredUser] always returns, with [null] or with the
    value that the stored text parses to, and leaves the storage untouched
    or removes the entry. When the entry is absent or is the empty string
    it returns [null] and leaves the storage untouched. When the entry is a
    non-empty text that [JSON.parse] rejects or parses to [null], or the
    parsed value carries a numeric [expiresAt] other than 0 that is earlier
    than the current time, it returns [null] and removes the entry. A value
    that it returns comes with the storage untouched, and a numeric
    [expiresAt] other than 0 that it carries is not earlier than the
    current time. *)
Theorem stored_user_cases
    (JSON_parse : string -> option JsValue)
    (ToNumber_other : JsValue -> Outcome Js.number)
    (now : Js.number) (ls : Storage) :
  let run := getStoredUser JSON_parse ToNumber_other now ls in
  (exists r ls', run = (Return r, ls')
     /\ (ls' = ls \/ ls' = delete key ls)
     /\ (forall user, r = Some user ->
           ls' = ls
           /\ user <> JNull
           /\ (exists text, ls !! key = Some text /\ text <> ""
                            /\ JSON_parse text = Some user)
           /\ (forall e, expiresAt_of user = Some (JNumber e) ->
                         Js.number_truthy e = true ->
                         (e <? now)%float = false)))
  /\ (ls !! key = None \/ ls !! key = Some "" -> run = (Return None, ls))
  /\ (forall text,
        ls !! key = Some text -> text <> "" ->
        JSON_parse text = None \/ JSON_parse text = Some JNull ->
        run = (Return None, delete key ls)
        /\ delete key ls !! key = None)
  /\ (forall text user e,
        ls !! key = Some text -> text <> "" ->
        JSON_parse text = Some user ->
        expiresAt_of user = Some (JNumber e) ->
        Js.number_truthy e = true ->
        (e <? now)%float = true ->
        run = (Return None, delete key ls)
        /\ delete key ls !! key = None).
Proof.
  cbv zeta. split; [apply always_returns|].
  split; [apply nothing_stored|].
  split.
  - intros text Hs Hne [Hp | Hp]; (split; [|apply lookup_delete_eq]).
    + eapply unparsable_text; eauto.
    + eapply parsed_null; eauto.
  - intros text user e Hs Hne Hp He Ht Hlt. split; [|apply lookup_delete_eq].
    rewrite (numeric_expiry _ _ _ _ text user e Hs Hne Hp He Ht), Hlt.
    reflexivity.
Qed.

Lemma stored_user_cases_witness :
  getStoredUser sampleParse sampleToNumber 1800000000000%float
    (stored (userText "1700000000000"))
  = (Return None, delete key (stored (userText "1700000000000")))
  /\ getStoredUser sampleParse sampleToNumber 1800000000000%float
       (stored "not json")
     = (Return None, delete key (stored "not json")).
Proof.
  pose proof (stored_user_cases sampleParse sampleToNumber
                1800000000000%float (stored (userText "1700000000000")))
    as (_ & _ & _ & Hexp).
  pose proof (stored_user_cases sampleParse sampleToNumber
                1800000000000%float (stored "not json"))
    as (_ & _ & Hbad & _).
  split.
  - apply (Hexp (userText "1700000000000") (userValue 1700000000000)
             1700000000000%float); vm_compute; congruence.
  - apply (Hbad "not json"); [reflexivity | discriminate | left; reflexivity].
Defined.

End AuthFacts.

(** ** The price preview stream *)

Module PreviewFacts.
Import Calculator CalculatorFacts PricePreview.

(** [===] on numbers holds between a number and itself, and between the
    two zeros. *)
Lemma strict_equal_cases (x y : Js.number) :
  PrimFloat.eqb x y = true ->
  x = y \/ ((x = 0%float \/ x = neg_zero) /\ (y = 0%float \/ y = neg_zero)).
Proof.
  rewrite FloatAxioms.eqb_spec. unfold SFeqb.
  pose proof (SF2Prim_Prim2SF x) as Ex. pose proof (SF2Prim_Prim2SF y) as Ey.
  destruct (Prim2SF x) as [[]|[]| |[] mx ex] eqn:Hx,
           (Prim2SF y) as [[]|[]| |[] my ey] eqn:Hy; simpl;
    try discriminate; intros H.
  1-4: right; simpl in Ex, Ey; subst; auto.
  1-2: left; apply Prim2SF_inj; congruence.
  all: left; apply Prim2SF_inj; rewrite Hx, Hy.
  all: destruct (Z.compare_spec ex ey); try discriminate; subst.
  all: change (Pos.compare_cont Eq) with Pos.compare in H.
  all: destruct (Pos.compare_spec mx my); try discriminate; subst.
  all: reflexivity.
Qed.

(** Every region string resolves to one of five multipliers. *)
Lemma regionMultiplier_values (values : FormValue) :
  regionMultiplier values
    ∈ [1.2%float; 1.1%float; 1.05%float; 1.0%float; nan].
Proof.
  destruct (decide (region values ∈ JsObject.Object_prototype)) as [Hp|Hp].
  - assert (Hall : Forall
      (fun r => JsObject.ToNumber
                  (JsObject.or (JsObject.get regionMultipliers r)
                               (JsObject.Number 1.0%float)) = nan)
      JsObject.Object_prototype)
      by (repeat constructor).
    rewrite Forall_forall in Hall.
    unfold regionMultiplier. rewrite (Hall _ Hp). set_unfold. tauto.
  - apply knownOrFallback_iff in Hp.
    pose proof (resolved_multiplier values Hp) as H. set_unfold. tauto.
Qed.

(** Two numbers that [===] cannot tell apart, or that are both NaN. *)
Definition same_number (a b : Js.number) : Prop :=
  a = b \/ PrimFloat.eqb a b = true.

Lemma estimate_of_zeros (m : Js.number) (p : bool) (x y : Js.number) :
  m ∈ [1.2%float; 1.1%float; 1.05%float; 1.0%float; nan] ->
  (x = 0%float \/ x = neg_zero) -> (y = 0%float \/ y = neg_zero) ->
  same_number (estimateFor x m p) (estimateFor y m p).
Proof.
  intros Hm Hx Hy. set_unfold.
  destruct Hm as [-> | [-> | [-> | [-> | [-> | []]]]]];
    destruct p, Hx as [-> | ->], Hy as [-> | ->];
    first [ left; vm_compute; reflexivity | right; vm_compute; reflexivity ].
Qed.

(** The comparator is sound for the estimate: values it does not tell apart
    have the same estimate. *)
Lemma unchanged_same_estimate (prev curr : FormValue) :
  unchanged prev curr = true ->
  same_number (calculateLocalEstimate prev) (calculateLocalEstimate curr).
Proof.
  unfold unchanged. intros H.
  apply andb_prop in H as [H Hp]. apply andb_prop in H as [Hn Hr].
  apply bool_decide_eq_true in Hr. apply Bool.eqb_prop in Hp.
  rewrite !estimate_is_estimateFor.
  assert (Hm : regionMultiplier prev = regionMultiplier curr).
  { unfold regionMultiplier. rewrite Hr. reflexivity. }
  rewrite <- Hm, <- Hp.
  destruct (strict_equal_cases _ _ Hn) as [-> | [Hx Hy]].
  - left. reflexivity.
  - apply estimate_of_zeros; auto. apply regionMultiplier_values.
Qed.

Lemma last_cons_default {A} (a d : A) (l : list A) :
  List.last (a :: l) d = List.last l a.
Proof.
  revert a d. induction l as [|b l IH]; intros a d; [reflexivity|].
  change (List.last (a :: b :: l) d) with (List.last (b :: l) d).
  rewrite !IH. reflexivity.
Qed.

Lemma distinctFrom_shows_latest (vs : list FormValue) :
  forall (shown v : FormValue),
    same_number
      (List.last (map calculateLocalEstimate
                    (distinctFrom unchanged shown (vs ++ [v])))
                 (calculateLocalEstimate shown))
      (calculateLocalEstimate v).
Proof.
  induction vs as [|w rest IH]; intros shown v; simpl.
  - destruct (unchanged shown v) eqn:Hu; simpl.
    + apply unchanged_same_estimate, Hu.
    + left. reflexivity.
  - destruct (unchanged shown w) eqn:Hu; [apply IH|].
    rewrite map_cons, last_cons_default. apply IH.
Qed.

(** X4: the price preview ends on the estimate of the latest form value.
    For every sequence of form values that reaches [distinctUntilChanged],
    the number last pushed into [estimatedPrice$] is the estimate of the
    last form value (the same number up to the sign of zero), although the
    estimate is not recomputed for a value whose [employees_count], [region]
    and [premium_48h] are [===] to those of the value last passed on. *)
Theorem preview_shows_latest (vs : list FormValue) (v : FormValue) :
  same_number (estimatedPrice (vs ++ [v])) (calculateLocalEstimate v).
Proof.
  unfold estimatedPrice, previewEstimates.
  destruct vs as [|w rest]; [left; reflexivity|].
  change ((w :: rest) ++ [v]) with (w :: (rest ++ [v])).
  unfold distinctUntilChanged.
  rewrite map_cons, last_cons_default. apply distinctFrom_shows_latest.
Qed.

(** The sign of zero is the one thing a skipped recomputation can miss:
    after the count [0], the count [-0] is not recomputed, and its estimate
    [-0] is shown as [0]. *)
Example preview_keeps_sign_of_first_zero :
  estimatedPrice [sampleValues 0 "Inne" false; sampleValues neg_zero "Inne" false]
  = 0%float
  /\ calculateLocalEstimate (sampleValues neg_zero "Inne" false) = neg_zero.
Proof. split; vm_compute; reflexivity. Qed.

End PreviewFacts.


(** ** The session kept by AuthService *)

Module SessionFacts.
Import Auth AuthService AuthFacts.

Section Session.
Variable JSON_parse : string -> option JsValue.
Variable ToNumber_other : JsValue -> Outcome Js.number.
Variable atob : string -> option string.
Variable JSON_stringify : LoginUser -> string.

Abbreviation construct := (construct JSON_parse ToNumber_other).
Abbreviation login_tap := (login_tap JSON_parse ToNumber_other atob JSON_stringify).
Abbreviation isLoggedIn := (isLoggedIn ToNumber_other).

(** The operations that change a running service. *)
Inductive Step : Type :=
| LoginResponded (res : LoginResponse)
| LoggedOut
| LoginChecked (now : Js.number).

Definition step (s : Service) (st : Step) : Service :=
  match st with
  | LoginResponded res => snd (login_tap res s)
  | LoggedOut => logout s
  | LoginChecked now => snd (isLoggedIn now s)
  end.

Definition run (steps : list Step) (s : Service) : Service :=
  fold_left step steps s.

(** [roleCache$] holds the role of the current user. *)
Definition role_cached (s : Service) : Prop :=
  roleCache s =
    match currentUser s with
    | Some u => if user_truthy u then user_role u else None
    | None => None
    end.

Lemma construct_role_cached (now : Js.number) (ls : Storage) (s : Service) :
  construct now ls = Return s -> role_cached s.
Proof.
  unfold AuthService.construct.
  destruct (getStoredUser _ _ _ _) as [[[v|]|e] ls']; intros [= <-];
    reflexivity.
Qed.

Lemma step_role_cached (s : Service) (st : Step) :
  role_cached s -> role_cached (step s st).
Proof.
  intros Hs. destruct st as [res| |now]; simpl.
  - unfold AuthService.login_tap. case_bool_decide; [exact Hs|].
    destruct (build_user _ _ _ _) as [u|e]; [reflexivity | exact Hs].
  - reflexivity.
  - unfold AuthService.isLoggedIn.
    destruct (currentUser s) as [u|] eqn:Hu; [|exact Hs].
    destruct (negb _ || negb _); [exact Hs|].
    destruct (session_expired _ _ _) as [[]|]; try exact Hs. reflexivity.
Qed.

Lemma run_role_cached (steps : list Step) :
  forall s, role_cached s -> role_cached (run steps s).
Proof.
  induction steps as [|st steps IH]; intros s Hs; [exact Hs|].
  apply IH, step_role_cached, Hs.
Qed.

(** X5: [isAdmin()] answers from [roleCache$], and that cache never drifts
    from the current user. From a service built by the constructor, after
    any sequence of login responses, [logout()] and [isLoggedIn()] calls,
    [isAdmin()] is true exactly when there is a current user, it is truthy,
    and its [role] is the string ['admin']. *)
Theorem admin_is_role_of_current_user
    (now : Js.number) (ls : Storage) (s0 : Service) (steps : list Step) :
  construct now ls = Return s0 ->
  let s := run steps s0 in
  isAdmin s = true <->
  exists u, currentUser s = Some u /\ user_truthy u = true
            /\ user_role u = Some (JString "admin").
Proof.
  intros Hc. cbv zeta.
  pose proof (run_role_cached steps s0 (construct_role_cached _ _ _ Hc)) as Hr.
  unfold role_cached in Hr. unfold isAdmin. rewrite Hr. clear Hr.
  destruct (currentUser (run steps s0)) as [u|].
  - destruct (user_truthy u) eqn:Ht.
    + split.
      * destruct (user_role u) as [[| | |r| |]|] eqn:Hrole; try discriminate.
        intros ->%bool_decide_eq_true. eauto.
      * intros (u' & [= <-] & _ & ->). apply bool_decide_eq_true. reflexivity.
    + split; [discriminate|]. intros (u' & [= <-] & Ht' & _). congruence.
  - split; [discriminate|]. intros (u' & [=] & _).
Qed.

(** A falsy user has no token. *)
Lemma falsy_user_has_no_token (u : SessionUser) :
  user_truthy u = false -> user_token u = None.
Proof.
  destruct u as [v|l]; [|discriminate].
  destruct v; simpl; try discriminate; reflexivity.
Qed.

(** X6: [logout()] ends the session in every respect: the stored entry is
    removed, one navigation to [/login] is added, [getToken()] is [null],
    [isAdmin()] and [isLoggedIn()] are false (the latter without a second
    logout), and a service constructed afterwards from the same storage
    starts without a user. *)
Theorem logout_ends_session (s : Service) (now : Js.number) :
  let s' := logout s in
  storage s' !! "currentUser" = None
  /\ navigations s' = navigations s ++ ["/login"]
  /\ getToken s' = None
  /\ isAdmin s' = false
  /\ isLoggedIn now s' = (Return false, s')
  /\ construct now (storage s')
     = Return {| storage := storage s'; currentUser := None;
                 roleCache := None; navigations := [] |}.
Proof.
  cbv zeta. repeat split.
  - apply lookup_delete_eq.
  - unfold AuthService.construct.
    rewrite (nothing_stored JSON_parse ToNumber_other now)
      by (left; apply lookup_delete_eq).
    reflexivity.
Qed.

(** X7: what an answer of [isLoggedIn()] means. When it returns true the
    service is unchanged and [getToken()] yields a token. When it returns
    false, [getToken()] is [null] afterwards, whether the user was missing,
    had no token, or was logged out by this very call because the session
    had expired, and every later call returns false and changes nothing. *)
Theorem login_check_outcome
    (now : Js.number) (s s' : Service) (b : bool) :
  isLoggedIn now s = (Return b, s') ->
  (b = true -> s' = s /\ is_Some (getToken s))
  /\ (b = false ->
      getToken s' = None
      /\ forall later, isLoggedIn later s' = (Return false, s')).
Proof.
  unfold AuthService.isLoggedIn, getToken.
  destruct (currentUser s) as [u|] eqn:Hu.
  2:{ intros [= <- <-]. split; [discriminate|]. intros _.
      rewrite Hu. auto. }
  destruct (user_truthy u) eqn:Ht; simpl.
  2:{ intros [= <- <-]. split; [discriminate|]. intros _.
      rewrite Hu, Ht, (falsy_user_has_no_token u Ht). simpl. auto. }
  destruct (ToBoolean (user_token u)) eqn:Hk; simpl.
  2:{ intros [= <- <-]. split; [discriminate|]. intros _.
      rewrite Hu, Ht, Hk. simpl. auto. }
  destruct (session_expired _ _ _) as [[]|]; intros [= <- <-].
  - split; [discriminate|]. intros _. simpl. auto.
  - split; [|discriminate]. intros _. split; [reflexivity|].
    destruct (user_token u); [eauto | discriminate].
Qed.

(** The comparison [Date.now() > expiresAt] does not read the storage. *)
Lemma gt_any_storage (now : Js.number) (v : option JsValue) (ls ls' : Storage) :
  fst (gt ToNumber_other now v ls) = fst (gt ToNumber_other now v ls').
Proof.
  unfold gt, ToNumber, bind, ret.
  destruct v as [[| | | | |]|]; simpl; try reflexivity;
    destruct (ToNumber_other _); reflexivity.
Qed.

(** X8: the constructor and [isLoggedIn()] agree on expiry. A user that the
    constructor restores from the storage at time [now] is not logged out by
    [isLoggedIn()] at that time, and the call does not throw: it returns
    true exactly when the restored user is truthy and has a truthy [token],
    and leaves the service as it is. *)
Theorem restored_session_is_logged_in
    (now : Js.number) (ls : Storage) (s : Service) :
  construct now ls = Return s ->
  isLoggedIn now s
  = (Return match currentUser s with
            | Some u => user_truthy u && ToBoolean (user_token u)
            | None => false
            end, s).
Proof.
  unfold AuthService.construct.
  pose proof (getStoredUser_cases JSON_parse ToNumber_other now ls) as Hcases.
  destruct (getStoredUser _ _ _ _) as [[r|e] ls'] eqn:Hrun; [|discriminate].
  intros [= <-]. unfold AuthService.isLoggedIn.
  destruct r as [v|]; [|reflexivity].
  change (Stored <$> Some v) with (Some (Stored v)).
  cbn [currentUser user_truthy user_token].
  destruct (ToBoolean (Some v)) eqn:Ht; [|reflexivity].
  destruct (ToBoolean (field_of "token" v)) eqn:Hk; [|reflexivity].
  cbn [negb orb andb].
  assert (Hx : session_expired ToNumber_other now (Stored v) = Return false).
  { unfold session_expired. simpl.
    destruct (ls !! key) as [text|]; [|discriminate Hcases].
    destruct (bool_decide (text = "")); [discriminate Hcases|].
    destruct (JSON_parse text) as [user|]; [|discriminate Hcases].
    unfold expired in Hcases.
    destruct user as [|b|n|str|items|props];
      try discriminate Hcases;
      try (injection Hcases as -> _; reflexivity).
    destruct (ToBoolean (expiresAt_of (JObject props))) eqn:Hb.
    2:{ injection Hcases as -> _. simpl in *. rewrite Hb. reflexivity. }
    destruct (fst (gt ToNumber_other now (expiresAt_of (JObject props)) ls))
      as [[]|] eqn:Hg; try discriminate Hcases.
    injection Hcases as -> _. simpl in *. rewrite Hb.
    rewrite (gt_any_storage now _ ∅ ls). exact Hg. }
  rewrite Hx. reflexivity.
Qed.

End Session.

(** *** A sample session *)

Definition sampleAtob (s : string) : option string := None.
Definition sampleStringify (u : LoginUser) : string := "{}".

(** The service restored from a stored admin whose session ends at
    1700000000000. *)
Definition restored : Service :=
  {| storage := stored (userText "1700000000000");
     currentUser := Some (Stored (userValue 1700000000000));
     roleCache := Some (JString "admin");
     navigations := [] |}.

Lemma restored_by_constructor :
  construct sampleParse sampleToNumber 1600000000000%float
    (stored (userText "1700000000000"))
  = Return restored.
Proof. vm_compute. reflexivity. Qed.

Lemma admin_is_role_of_current_user_witness :
  let s := run sampleParse sampleToNumber sampleAtob sampleStringify
             [LoginChecked 1650000000000%float] restored in
  isAdmin s = true <->
  exists u, currentUser s = Some u /\ user_truthy u = true
            /\ user_role u = Some (JString "admin").
Proof.
  apply (admin_is_role_of_current_user sampleParse sampleToNumber sampleAtob
           sampleStringify 1600000000000%float
           (stored (userText "1700000000000"))).
  vm_compute. reflexivity.
Defined.

Lemma login_check_outcome_witness :
  getToken (logout restored) = None.
Proof.
  apply (login_check_outcome sampleToNumber 1800000000000%float restored
           (logout restored) false);
    vm_compute; reflexivity.
Defined.

Lemma restored_session_is_logged_in_witness :
  isLoggedIn sampleToNumber 1600000000000%float restored
  = (Return true, restored).
Proof.
  apply (restored_session_is_logged_in sampleParse sampleToNumber
           1600000000000%float (stored (userText "1700000000000")) restored).
  vm_compute. reflexivity.
Defined.

End SessionFacts.

(** ** Login, reload and the request headers *)

Module ReloadFacts.
Import Auth AuthService ApiService AuthFacts.

Section Reload.
Variable JSON_parse : string -> option JsValue.
Variable ToNumber_other : JsValue -> Outcome Js.number.
Variable atob : string -> option string.
Variable JSON_stringify : LoginUser -> string.
Variable ToString_other : JsValue -> Outcome string.

Abbreviation construct := (construct JSON_parse ToNumber_other).
Abbreviation build_user := (build_user JSON_parse ToNumber_other atob).
Abbreviation login_tap :=
  (login_tap JSON_parse ToNumber_other atob JSON_stringify).
Abbreviation isLoggedIn := (isLoggedIn ToNumber_other).
Abbreviation getHeaders := (getHeaders JSON_parse ToString_other).
Abbreviation getCompanies := (getCompanies JSON_parse ToString_other).

(** The user that [login] builds carries the token of the response. *)
Lemma build_user_token (token : string) (u : LoginUser) :
  build_user token = Return u -> lu_token u = token.
Proof.
  unfold AuthService.build_user. cbv zeta.
  destruct (payload_field "exp" _) as [e|]; [|intros [= <-]; reflexivity].
  destruct (ToBoolean (Some e)); [|intros [= <-]; reflexivity].
  destruct (fst _) as [n|err]; [intros [= <-]; reflexivity | discriminate].
Qed.

(** The expiry check on a user built by [login] compares two numbers. *)
Lemma session_expired_logged_in (now : Js.number) (u : LoginUser) :
  session_expired ToNumber_other now (LoggedIn u)
  = Return match lu_expiresAt u with
           | Some n => Js.number_truthy n && (n <? now)%float
           | None => false
           end.
Proof.
  unfold session_expired. simpl.
  destruct (lu_expiresAt u) as [n|]; simpl; [|reflexivity].
  destruct (Js.number_truthy n); reflexivity.
Qed.

Definition empty_service (ls : Storage) : Service :=
  {| storage := ls; currentUser := None; roleCache := None;
     navigations := [] |}.

(** X9: a login survives a reload of the page. After the [tap] of [login]
    has handled a response with a non-empty token, [getToken()] is that
    token and the headers of [ApiService] carry [Bearer] followed by it.
    When the text that [JSON.stringify] wrote parses back to a value with
    the same [token], [role] and [expiresAt], a service constructed from the
    storage at time [now] has that value as its user and the same role
    cached, unless the session has expired at [now]: then the constructor
    removes the entry and starts without a user, and [isLoggedIn()] on the
    running service logs out. [isLoggedIn()] never throws here. *)
Theorem session_survives_reload
    (res : LoginResponse) (s : Service) (u : LoginUser) (v : JsValue)
    (now : Js.number) :
  access_token res <> "" ->
  build_user (access_token res) = Return u ->
  JSON_stringify u <> "" ->
  JSON_parse (JSON_stringify u) = Some v ->
  field_of "token" v = Some (JString (lu_token u)) ->
  field_of "role" v = Some (lu_role u) ->
  expiresAt_of v = JNumber <$> lu_expiresAt u ->
  let s1 := snd (login_tap res s) in
  getToken s1 = Some (JString (access_token res))
  /\ getHeaders (storage s1)
     = Return {| Authorization := "Bearer " +:+ access_token res;
                 Content_Type := "application/json" |}
  /\ exists expired,
       session_expired ToNumber_other now (LoggedIn u) = Return expired
       /\ isLoggedIn now s1
          = (Return (negb expired), if expired then logout s1 else s1)
       /\ construct now (storage s1)
          = Return (if expired
                    then empty_service (delete "currentUser" (storage s1))
                    else {| storage := storage s1;
                            currentUser := Some (Stored v);
                            roleCache := Some (lu_role u);
                            navigations := [] |}).
Proof.
  intros Hne Hu Htext Hparse Htok Hrole Hexp. cbv zeta.
  pose proof (build_user_token _ _ Hu) as Hlt.
  unfold AuthService.login_tap.
  rewrite bool_decide_eq_false_2 by assumption.
  rewrite Hu. cbn [snd].
  assert (Htruthy : ToBoolean (Some (JString (access_token res))) = true).
  { simpl. rewrite bool_decide_eq_false_2 by assumption. reflexivity. }
  split; [|split].
  - unfold getToken. cbn [currentUser user_token]. rewrite Hlt, Htruthy.
    reflexivity.
  - unfold ApiService.getHeaders, read_token, stored_text. cbn [storage].
    rewrite lookup_insert_eq.
    rewrite bool_decide_eq_false_2 by assumption.
    rewrite Hparse.
    assert (Hv : v <> JNull) by (intros ->; discriminate Htok).
    destruct v as [| | | | |props]; try congruence; try discriminate Htok.
    rewrite Htok, Hlt. unfold bearer. rewrite Htruthy. reflexivity.
  - rewrite session_expired_logged_in. eexists. split; [reflexivity|].
    split.
    + unfold AuthService.isLoggedIn. cbn [currentUser user_truthy user_token].
      rewrite Hlt, Htruthy. cbn [negb orb].
      rewrite session_expired_logged_in.
      destruct (match lu_expiresAt u with Some _ => _ | None => _ end);
        reflexivity.
    + unfold AuthService.construct. cbn [storage].
      pose proof (getStoredUser_cases JSON_parse ToNumber_other now
                    (<["currentUser" := JSON_stringify u]> (storage s)))
        as Hcases.
      unfold key in Hcases. rewrite lookup_insert_eq in Hcases.
      rewrite bool_decide_eq_false_2 in Hcases by assumption.
      rewrite Hparse in Hcases.
      destruct v as [| | | | |props]; try discriminate Htok.
      rewrite Hexp in Hcases. unfold expired in Hcases.
      assert (Hkeep :
        match (Return (Some (JObject props)) : Outcome (option JsValue),
               <["currentUser" := JSON_stringify u]> (storage s)) with
        | (Return storedUser, ls') =>
            Return
              {| storage := ls';
                 currentUser := Stored <$> storedUser;
                 roleCache :=
                   match storedUser with
                   | Some v => if ToBoolean (Some v) then field_of "role" v
                               else None
                   | None => None
                   end;
                 navigations := [] |}
        | (Throw e, _) => Throw e
        end
        = Return {| storage := <["currentUser" := JSON_stringify u]> (storage s);
                    currentUser := Some (Stored (JObject props));
                    roleCache := Some (lu_role u);
                    navigations := [] |}).
      { cbn [ToBoolean]. rewrite Hrole. reflexivity. }
      destruct (lu_expiresAt u) as [n|];
        cbn [fmap option_fmap option_map ToBoolean] in Hcases.
      2:{ rewrite Hcases. exact Hkeep. }
      destruct (Js.number_truthy n); cbn [andb].
      2:{ rewrite Hcases. exact Hkeep. }
      cbn [gt ToNumber bind ret fst] in Hcases.
      destruct (n <? now)%float; rewrite Hcases;
        [reflexivity | exact Hkeep].
Qed.

(** *** A stored entry that is not JSON *)

(** X10: the two services treat a malformed stored user differently. With a
    non-empty entry that [JSON.parse] rejects, [getHeaders()] of
    [ApiService] throws a SyntaxError, and so does [getCompanies()] when it
    has nothing cached, leaving the cache as it was; the constructor of
    [AuthService] catches the error and removes the entry, after which the
    headers are built, with the bare [Bearer ] authorization. *)
Theorem malformed_entry_breaks_requests
    (ls : Storage) (text : string) (now : Js.number) :
  ls !! "currentUser" = Some text ->
  text <> "" ->
  JSON_parse text = None ->
  JSON_parse "{}" = Some (JObject []) ->
  getHeaders ls = Throw SyntaxError
  /\ (forall at_time c,
        companiesCache c = None ->
        getCompanies at_time false ls c = (Throw SyntaxError, c))
  /\ exists s, construct now ls = Return s
       /\ storage s = delete "currentUser" ls
       /\ getHeaders (storage s)
          = Return {| Authorization := "Bearer ";
                      Content_Type := "application/json" |}.
Proof.
  intros Hls Htext Hbad Hempty.
  assert (Hh : getHeaders ls = Throw SyntaxError).
  { unfold ApiService.getHeaders, read_token, stored_text.
    rewrite Hls, bool_decide_eq_false_2 by assumption.
    rewrite Hbad. reflexivity. }
  split; [exact Hh|]. split.
  - intros at_time c Hc. unfold ApiService.getCompanies, request.
    rewrite Hc, Hh. reflexivity.
  - unfold AuthService.construct.
    rewrite (unparsable_text JSON_parse ToNumber_other now ls text)
      by auto.
    eexists. split; [reflexivity|]. split; [reflexivity|].
    cbn [storage]. unfold ApiService.getHeaders, read_token, stored_text.
    rewrite lookup_delete_eq, Hempty. reflexivity.
Qed.

(** X15: a token without an expiry claim gives a session that never
    expires. When the payload that [parseJwt] extracts has no truthy [exp],
    which includes every token that [parseJwt] cannot parse (it returns
    [null] then), the login still succeeds, the user is stored with
    [expiresAt] undefined, and [isLoggedIn()] returns true at every later
    time. A token that [parseJwt] cannot parse logs in with the role
    ['user'], so [isAdmin()] is false. *)
Theorem token_without_expiry_never_expires
    (res : LoginResponse) (s : Service) :
  access_token res <> "" ->
  ToBoolean (payload_field "exp"
               (parseJwt JSON_parse atob (access_token res))) = false ->
  let s1 := snd (login_tap res s) in
  (exists u, login_tap res s
             = (Return tt,
                {| storage := <["currentUser" := JSON_stringify u]> (storage s);
                   currentUser := Some (LoggedIn u);
                   roleCache := Some (lu_role u);
                   navigations := navigations s |})
             /\ lu_token u = access_token res
             /\ lu_expiresAt u = None
             /\ (parseJwt JSON_parse atob (access_token res) = JNull ->
                 lu_role u = JString "user" /\ lu_email u = EmailUndefined
                 /\ isAdmin s1 = false))
  /\ forall now, isLoggedIn now s1 = (Return true, s1).
Proof.
  intros Hne Hexp. cbv zeta. unfold AuthService.login_tap.
  rewrite bool_decide_eq_false_2 by assumption.
  assert (Htruthy : ToBoolean (Some (JString (access_token res))) = true).
  { simpl. rewrite bool_decide_eq_false_2 by assumption. reflexivity. }
  assert (Hu : exists u,
             build_user (access_token res) = Return u
             /\ lu_token u = access_token res
             /\ lu_expiresAt u = None
             /\ (parseJwt JSON_parse atob (access_token res) = JNull ->
                 lu_role u = JString "user" /\ lu_email u = EmailUndefined)).
  { unfold AuthService.build_user. cbv zeta.
    destruct (payload_field "exp" _) as [e|] eqn:He.
    - rewrite Hexp. eexists. split; [reflexivity|].
      cbn [lu_token lu_expiresAt lu_role lu_email].
      split; [reflexivity|]. split; [reflexivity|].
      intros Hnull. rewrite Hnull in He. discriminate He.
    - eexists. split; [reflexivity|].
      cbn [lu_token lu_expiresAt lu_role lu_email].
      split; [reflexivity|]. split; [reflexivity|].
      intros Hnull. rewrite Hnull. split; reflexivity. }
  destruct Hu as (u & -> & Htok & Hnone & Hnull). cbn [snd]. split.
  - exists u. split; [reflexivity|]. split; [exact Htok|].
    split; [exact Hnone|]. intros Hn. destruct (Hnull Hn) as [Hr Hm].
    split; [exact Hr|]. split; [exact Hm|].
    unfold isAdmin. cbn [roleCache]. rewrite Hr. reflexivity.
  - intros now. unfold AuthService.isLoggedIn, session_expired.
    cbn [currentUser user_truthy user_token user_expiresAt].
    rewrite Htok, Htruthy, Hnone. reflexivity.
Qed.

End Reload.

(** *** A sample login *)

Definition quoted (s : string) : string := dq +:+ s +:+ dq.

(** The token [h.p.s], whose middle part decodes to the payload below. *)
Definition sampleToken : string := "h.p.s".

(** [{"sub":"a@b.c","role":"admin","exp":1700000000}] *)
Definition payloadText : string :=
  "{" +:+ quoted "sub" +:+ ":" +:+ quoted "a@b.c" +:+ ","
  +:+ quoted "role" +:+ ":" +:+ quoted "admin" +:+ ","
  +:+ quoted "exp" +:+ ":1700000000}".

(** [{"token":"h.p.s","email":"a@b.c","role":"admin","expiresAt":1700000000000}] *)
Definition sessionText : string :=
  "{" +:+ quoted "token" +:+ ":" +:+ quoted sampleToken +:+ ","
  +:+ quoted "email" +:+ ":" +:+ quoted "a@b.c" +:+ ","
  +:+ quoted "role" +:+ ":" +:+ quoted "admin" +:+ ","
  +:+ quoted "expiresAt" +:+ ":1700000000000}".

Definition sessionValue : JsValue :=
  JObject [("token", JString sampleToken); ("email", JString "a@b.c");
           ("role", JString "admin");
           ("expiresAt", JNumber 1700000000000)].

Definition loginParse : string -> option JsValue :=
  parse_table
    [ (payloadText,
       JObject [("sub", JString "a@b.c"); ("role", JString "admin");
                ("exp", JNumber 1700000000)]);
      (sessionText, sessionValue);
      ("{}", JObject []) ].

Definition loginAtob (s : string) : option string :=
  if bool_decide (s = "p") then Some payloadText else None.

Definition loginStringify (u : LoginUser) : string := sessionText.

Definition loginToString (v : JsValue) : Outcome string := Throw TypeError.

Definition sampleResponse (token : string) : LoginResponse :=
  {| access_token := token; token_type := "bearer" |}.

Definition sampleUser : LoginUser :=
  {| lu_token := sampleToken;
     lu_email := EmailValue (JString "a@b.c");
     lu_role := JString "admin";
     lu_expiresAt := Some 1700000000000%float |}.

Lemma session_survives_reload_witness :
  construct loginParse sampleToNumber 1600000000000%float
    (storage (snd (login_tap loginParse sampleToNumber loginAtob
                     loginStringify (sampleResponse sampleToken)
                     (empty_service ∅))))
  = Return {| storage := stored sessionText;
              currentUser := Some (Stored sessionValue);
              roleCache := Some (JString "admin");
              navigations := [] |}.
Proof.
  destruct (session_survives_reload loginParse sampleToNumber loginAtob
              loginStringify loginToString (sampleResponse sampleToken)
              (empty_service ∅) sampleUser sessionValue 1600000000000%float)
    as (_ & _ & expired & Hexpired & _ & Hreload).
  1-7: vm_compute; congruence.
  rewrite Hreload.
  assert (expired = false) as -> by (vm_compute in Hexpired; congruence).
  vm_compute. reflexivity.
Defined.

Lemma malformed_entry_breaks_requests_witness :
  getHeaders loginParse loginToString (stored "not json") = Throw SyntaxError.
Proof.
  apply (malformed_entry_breaks_requests loginParse sampleToNumber
           loginToString (stored "not json") "not json" 1600000000000%float);
    vm_compute; congruence.
Defined.

Lemma token_without_expiry_never_expires_witness :
  isLoggedIn sampleToNumber 1900000000000%float
    (snd (login_tap loginParse sampleToNumber loginAtob loginStringify
            (sampleResponse "opaque") (empty_service ∅)))
  = (Return true,
     snd (login_tap loginParse sampleToNumber loginAtob loginStringify
            (sampleResponse "opaque") (empty_service ∅))).
Proof.
  apply (token_without_expiry_never_expires loginParse sampleToNumber
           loginAtob loginStringify (sampleResponse "opaque")
           (empty_service ∅));
    vm_compute; congruence.
Defined.

End ReloadFacts.


(** ** Sample offers *)

Module SampleOffers.
Import Api.

Definition sampleRow (n : Js.number) (r : string) (p : PriorityLevel) : Offer :=
  {| id := n; offer_company_id := 1%float;
     offer_employees_count := 100%float;
     offer_region := r; offer_premium_48h := false;
     base_price := 10000%float; final_price := 9500%float;
     ai_score := 75.5%float; ml_score := 80%float; rule_score := 65%float;
     priority_level := p; created_at := "2024-01-01T00:00:00Z" |}.

End SampleOffers.

(** ** The table filter *)

Module FilterFacts.
Import Api OffersFilter.

Definition space : Ascii.ascii := Ascii.ascii_of_nat 32.

(** A string includes [" "] exactly when one of its characters is a space. *)
Fixpoint has_space (s : string) : bool :=
  match s with
  | EmptyString => false
  | String a rest => Ascii.eqb a space || has_space rest
  end.

Lemma includes_space (s : string) : includes s " " = has_space s.
Proof.
  induction s as [|a rest IH]; [reflexivity|].
  cbn [includes has_space]. rewrite IH. f_equal.
  cbn [String.prefix]. unfold space.
  destruct (Ascii.ascii_dec _ a) as [E|E];
    destruct (Ascii.eqb_spec a (Ascii.ascii_of_nat 32)) as [E'|E'].
  - destruct rest; reflexivity.
  - destruct E'. symmetry. exact E.
  - destruct E. symmetry. exact E'.
  - reflexivity.
Qed.

Section Filter.
Variable toLowerCase : string -> string.
Variable Number_toString : Js.number -> string.

(** What is used of the built-ins: lower-casing introduces no space, and the
    decimal form of a number has none. *)
Hypothesis lower_no_space :
  forall s, includes s " " = false -> includes (toLowerCase s) " " = false.
Hypothesis number_no_space :
  forall n, includes (Number_toString n) " " = false.

Lemma blank_filter_rejects (pf rf : option string) (o : Offer) :
  includes (offer_region o) " " = false ->
  filterPredicate toLowerCase Number_toString pf rf o " " = false.
Proof.
  intros Hr. unfold filterPredicate. cbv zeta.
  rewrite number_no_space, (lower_no_space _ Hr).
  rewrite lower_no_space by (destruct (priority_level o); reflexivity).
  reflexivity.
Qed.

(** X11: selecting a priority or a region while the search box is empty
    hides every row. The selection handlers set the filter string to a single
    space, which is not empty, so the predicate is applied, and its search
    test looks for a space in the lower-cased region, the lower-cased
    priority level and the id: no offer whose region has no space passes,
    whatever the two selections are. *)
Theorem select_with_empty_search_hides_all
    (pf rf search : option string) (offers : list Offer) :
  search = None \/ search = Some "" ->
  Forall (fun o => includes (offer_region o) " " = false) offers ->
  filter_on_select search = " "
  /\ Forall (fun o =>
              filterPredicate toLowerCase Number_toString pf rf o
                (filter_on_select search) = false) offers
  /\ filteredData toLowerCase Number_toString pf rf
       (filter_on_select search) offers = [].
Proof.
  intros Hs Hall.
  assert (Hf : filter_on_select search = " ")
    by (destruct Hs as [-> | ->]; reflexivity).
  split; [exact Hf|]. rewrite Hf. split.
  - eapply Forall_impl; [exact Hall|].
    intros o Ho. apply blank_filter_rejects, Ho.
  - unfold filteredData. simpl.
    induction Hall as [|o rest Ho _ IH]; [reflexivity|].
    simpl. rewrite (blank_filter_rejects pf rf o Ho). exact IH.
Qed.

End Filter.

(** Lower-casing of the ASCII letters, as an instance of the built-in. *)
Definition lower_ascii_char (a : Ascii.ascii) : Ascii.ascii :=
  let n := Ascii.nat_of_ascii a in
  if (65 <=? n)%nat && (n <=? 90)%nat then Ascii.ascii_of_nat (n + 32) else a.

Fixpoint lower_ascii (s : string) : string :=
  match s with
  | EmptyString => EmptyString
  | String a rest => String (lower_ascii_char a) (lower_ascii rest)
  end.

Lemma lower_ascii_char_space (a : Ascii.ascii) :
  Ascii.eqb a space = false -> Ascii.eqb (lower_ascii_char a) space = false.
Proof.
  destruct a as [[] [] [] [] [] [] [] []]; intros H; vm_compute in *; congruence.
Qed.

Lemma lower_ascii_no_space (s : string) :
  includes s " " = false -> includes (lower_ascii s) " " = false.
Proof.
  rewrite !includes_space.
  induction s as [|a rest IH]; [reflexivity|]. simpl.
  intros [Ha Hr]%orb_false_elim.
  rewrite (lower_ascii_char_space a Ha), (IH Hr). reflexivity.
Qed.

Lemma select_with_empty_search_hides_all_witness :
  filteredData lower_ascii (fun _ => "7") (Some "VIP") (Some "all")
    (filter_on_select (Some ""))
    [SampleOffers.sampleRow 7 "Mazowieckie" VIP; SampleOffers.sampleRow 8 "Inne" LOW] = [].
Proof.
  apply (select_with_empty_search_hides_all lower_ascii (fun _ => "7")
           lower_ascii_no_space (fun _ => eq_refl)
           (Some "VIP") (Some "all") (Some "")
           [SampleOffers.sampleRow 7 "Mazowieckie" VIP; SampleOffers.sampleRow 8 "Inne" LOW]).
  - right. reflexivity.
  - repeat constructor.
Defined.

End FilterFacts.

(** ** The companies cache *)

Module CacheFacts.
Import Auth ApiService.

(** Subtracting zero changes no double. *)
Lemma sub_zero (x : Js.number) : (x - 0)%float = x.
Proof.
  apply Prim2SF_inj. rewrite FloatAxioms.sub_spec.
  change (Prim2SF 0) with (S754_zero false).
  unfold SF64sub, SFsub. destruct (Prim2SF x) as [[]|[]| |]; reflexivity.
Qed.

Section Cache.
Variable JSON_parse : string -> option JsValue.
Variable ToString_other : JsValue -> Outcome string.

Abbreviation getHeaders := (getHeaders JSON_parse ToString_other).
Abbreviation getCompanies := (getCompanies JSON_parse ToString_other).
Abbreviation request := (request JSON_parse ToString_other).

(** X12: a pending request is never reused. [lastCacheTime] is 0 until the
    first response arrives (and again after [invalidateCache()]), so at any
    time of day of at least [cacheExpiry] milliseconds, which every reading
    of [Date.now()] is, the test [(now - lastCacheTime) < cacheExpiry]
    fails: [getCompanies()] creates a new request on every call, cached
    observable or not, and [lastCacheTime] is still 0 afterwards. *)
Theorem pending_request_is_not_shared
    (now : Js.number) (ls : Storage) (c : Cache) (h : HttpHeaders) :
  lastCacheTime c = 0%float ->
  (cacheExpiry <=? now)%float = true ->
  getHeaders ls = Return h ->
  forall force,
    getCompanies now force ls c
    = (Return (length (requests c)),
       {| companiesCache := Some (length (requests c));
          lastCacheTime := 0%float;
          requests := requests c ++ [h] |}).
Proof.
  intros Hzero Hlate Hh force. unfold ApiService.getCompanies.
  rewrite Hzero, sub_zero, (leb_ltb_false _ _ Hlate), andb_false_r.
  unfold ApiService.request. rewrite Hh, Hzero.
  destruct (companiesCache c); reflexivity.
Qed.

(** X13: within [cacheExpiry] of the last response, [getCompanies()]
    returns the cached observable and reads nothing: the result is the same
    whatever the storage holds by then, a different user or an entry that
    would make [getHeaders()] throw. [getCompanies(true)], and any call
    after [invalidateCache()], creates a new request with the headers read
    at that moment. *)
Theorem fresh_cache_ignores_storage
    (now : Js.number) (c : Cache) (obs : nat) :
  companiesCache c = Some obs ->
  (now - lastCacheTime c <? cacheExpiry)%float = true ->
  (forall ls, getCompanies now false ls c = (Return obs, c))
  /\ (forall ls h,
        getHeaders ls = Return h ->
        getCompanies now true ls c
        = (Return (length (requests c)),
           {| companiesCache := Some (length (requests c));
              lastCacheTime := lastCacheTime c;
              requests := requests c ++ [h] |})
        /\ fst (getCompanies now false ls (invalidateCache c))
           = Return (length (requests c))).
Proof.
  intros Hc Hfresh. split.
  - intros ls. unfold ApiService.getCompanies. rewrite Hc, Hfresh. reflexivity.
  - intros ls h Hh. unfold ApiService.getCompanies, ApiService.request.
    rewrite Hc, Hh. simpl. auto.
Qed.

End Cache.

Definition sampleHeaders : HttpHeaders :=
  {| Authorization := "Bearer "; Content_Type := "application/json" |}.

Definition emptyParse : string -> option JsValue :=
  parse_table [("{}", JObject [])].

Definition noToString (v : JsValue) : Outcome string := Throw TypeError.

Lemma pending_request_is_not_shared_witness :
  fst (getCompanies emptyParse noToString 1700000000500%float false ∅
         (snd (getCompanies emptyParse noToString 1700000000000%float false ∅
                 initial)))
  = Return 1%nat.
Proof.
  rewrite (pending_request_is_not_shared emptyParse noToString
             1700000000000%float ∅ initial sampleHeaders)
    by (vm_compute; reflexivity).
  rewrite (pending_request_is_not_shared emptyParse noToString
             1700000000500%float ∅ _ sampleHeaders)
    by (vm_compute; reflexivity).
  reflexivity.
Defined.

(** One request made and answered at 1700000000000. *)
Definition answered : Cache :=
  {| companiesCache := Some 0%nat; lastCacheTime := 1700000000000%float;
     requests := [sampleHeaders] |}.

Lemma fresh_cache_ignores_storage_witness :
  getCompanies emptyParse noToString 1700000060000%float false
    (<["currentUser" := "not json"]> ∅) answered
  = (Return 0%nat, answered).
Proof.
  apply (fresh_cache_ignores_storage emptyParse noToString
           1700000060000%float answered 0%nat);
    vm_compute; reflexivity.
Defined.

End CacheFacts.

(** ** The counts of the offer statistics *)

Module CountFacts.
Import Api OffersList.

(** X14: the counts of [calculateStats]. [totalOffers] is the number of
    offers and [vipCount] the number of VIP offers among them: [vipCount]
    never exceeds [totalOffers], equals it exactly when every offer is VIP,
    and neither count depends on the order of the offers. *)
Theorem stats_counts (offers : list Offer) :
  let s := calculateStats offers in
  totalOffers s = length offers
  /\ vipCount s <= totalOffers s
  /\ (vipCount s = totalOffers s <->
      Forall (fun o => priority_level o = VIP) offers)
  /\ (forall reordered, Permutation offers reordered ->
        totalOffers (calculateStats reordered) = totalOffers s
        /\ vipCount (calculateStats reordered) = vipCount s).
Proof.
  cbv zeta. unfold calculateStats. simpl. repeat split.
  - apply length_filter.
  - induction offers as [|o rest IH]; [constructor|].
    simpl. destruct (decide (priority_level o = VIP)) as [Hv|Hv].
    + rewrite filter_cons_True by assumption. simpl.
      intros [= H]. constructor; [assumption | apply IH, H].
    + rewrite filter_cons_False by assumption. intros H.
      pose proof (length_filter (fun o => priority_level o = VIP) rest). lia.
  - induction 1 as [|o rest Ho _ IH]; [reflexivity|].
    rewrite filter_cons_True by assumption. simpl. f_equal. exact IH.
  - symmetry. apply Permutation_length. assumption.
  - apply Permutation_length. symmetry.
    apply filter_Permutation. assumption.
Qed.

Lemma stats_counts_witness :
  vipCount (calculateStats [SampleOffers.sampleRow 2 "Inne" LOW;
                            SampleOffers.sampleRow 1 "Inne" VIP])
  = vipCount (calculateStats [SampleOffers.sampleRow 1 "Inne" VIP;
                              SampleOffers.sampleRow 2 "Inne" LOW]).
Proof.
  apply (stats_counts [SampleOffers.sampleRow 1 "Inne" VIP;
                       SampleOffers.sampleRow 2 "Inne" LOW]).
  apply perm_swap.
Defined.

End CountFacts.


(** ** The CSV export *)

Module ExportFacts.
Import Api OffersFilter OffersExport.
Import AuthService (split_on).

(** The number of occurrences of a character in a string. *)
Fixpoint occurrences (c : Ascii.ascii) (s : string) : nat :=
  match s with
  | EmptyString => 0
  | String a rest => (if Ascii.eqb a c then 1 else 0) + occurrences c rest
  end.

Lemma occurrences_app (c : Ascii.ascii) (s t : string) :
  occurrences c (s +:+ t) = occurrences c s + occurrences c t.
Proof.
  induction s as [|a rest IH]; [reflexivity|].
  simpl. rewrite IH. lia.
Qed.

Lemma split_on_nonempty (c : Ascii.ascii) (s : string) :
  split_on c s <> [].
Proof.
  destruct s as [|a rest]; [discriminate|]. simpl.
  destruct (Ascii.eqb a c); [discriminate|].
  destruct (split_on c rest); discriminate.
Qed.

(** [split] yields one more part than there are separators. *)
Lemma split_on_length (c : Ascii.ascii) (s : string) :
  length (split_on c s) = S (occurrences c s).
Proof.
  induction s as [|a rest IH]; [reflexivity|]. simpl.
  destruct (Ascii.eqb a c); simpl; [rewrite IH; reflexivity|].
  pose proof (split_on_nonempty c rest) as Hne.
  destruct (split_on c rest) as [|h t]; [contradiction|]. exact IH.
Qed.

(** Splitting a text free of the separator, followed by more. *)
Lemma split_on_app (c : Ascii.ascii) (s t : string) :
  occurrences c s = 0 ->
  split_on c (s +:+ String c t) = s :: split_on c t.
Proof.
  induction s as [|a rest IH]; simpl.
  - intros _. rewrite Ascii.eqb_refl. reflexivity.
  - destruct (Ascii.eqb a c); [discriminate|]. simpl. intros H.
    rewrite (IH H). reflexivity.
Qed.

Lemma split_on_whole (c : Ascii.ascii) (s : string) :
  occurrences c s = 0 -> split_on c s = [s].
Proof.
  induction s as [|a rest IH]; [reflexivity|]. simpl.
  destruct (Ascii.eqb a c); [discriminate|]. simpl. intros H.
  rewrite (IH H). reflexivity.
Qed.

(** [split] undoes [join] on parts free of the separator. *)
Lemma split_join (c : Ascii.ascii) (parts : list string) :
  parts <> [] ->
  Forall (fun p => occurrences c p = 0) parts ->
  split_on c (join c parts) = parts.
Proof.
  intros Hne Hall. induction Hall as [|p rest Hp Hrest IH]; [contradiction|].
  destruct rest as [|q rest'].
  - simpl. apply split_on_whole, Hp.
  - change (join c (p :: q :: rest'))
      with (p +:+ String c (join c (q :: rest'))).
    rewrite (split_on_app c p _ Hp), IH by discriminate. reflexivity.
Qed.

Lemma occurrences_join (c d : Ascii.ascii) (parts : list string) :
  Forall (fun p => occurrences d p = 0) parts ->
  c <> d ->
  occurrences d (join c parts) = 0.
Proof.
  intros Hall Hcd. induction Hall as [|p rest Hp Hrest IH]; [reflexivity|].
  destruct rest as [|q rest'].
  - exact Hp.
  - change (join c (p :: q :: rest'))
      with (p +:+ String c (join c (q :: rest'))).
    rewrite occurrences_app, Hp. simpl. rewrite IH.
    destruct (Ascii.eqb_spec c d); [contradiction | reflexivity].
Qed.

Lemma occurrences_join_ge (c : Ascii.ascii) (parts : list string) :
  length parts - 1 + list_sum (map (occurrences c) parts)
  = occurrences c (join c parts).
Proof.
  induction parts as [|p rest IH]; [reflexivity|].
  destruct rest as [|q rest'].
  - unfold join. simpl. lia.
  - change (join c (p :: q :: rest'))
      with (p +:+ String c (join c (q :: rest'))).
    rewrite occurrences_app.
    change (occurrences c (String c (join c (q :: rest'))))
      with ((if Ascii.eqb c c then 1 else 0)
            + occurrences c (join c (q :: rest'))).
    rewrite Ascii.eqb_refl, <- IH. simpl. lia.
Qed.

Section Csv.
Variable Number_toString : Js.number -> string.

Abbreviation row := (row Number_toString).
Abbreviation csv := (csv Number_toString).

(** What is used of [Number.prototype.toString]: its result has no comma
    and no line break. *)
Hypothesis number_plain :
  forall n, occurrences comma (Number_toString n) = 0
            /\ occurrences newline (Number_toString n) = 0.

(** A region that needs no quoting. *)
Definition plain (s : string) : Prop :=
  occurrences comma s = 0 /\ occurrences newline s = 0.

Lemma row_plain (o : Offer) (c : Ascii.ascii) :
  c = comma \/ c = newline ->
  occurrences c (offer_region o) = 0 ->
  Forall (fun p => occurrences c p = 0) (row o).
Proof.
  intros Hc Hr. unfold OffersExport.row.
  assert (Hn : forall n, occurrences c (Number_toString n) = 0)
    by (intros n; destruct Hc as [-> | ->]; apply number_plain).
  repeat constructor; auto.
  destruct Hc as [-> | ->]; destruct (priority_level o); reflexivity.
Qed.

(** X16: the CSV export writes fields as they are, with no quoting. When no
    region of the exported offers contains a comma or a line break, the
    text reads back: splitting it at line breaks and each line at commas
    gives the header row followed by one row of eight fields per offer, in
    order. An offer whose region contains a comma gets a line that splits
    into more than eight fields. *)
Theorem csv_reads_back_without_commas (offers : list Offer) :
  (Forall (fun o => plain (offer_region o)) offers ->
   map (split_on comma) (split_on newline (csv offers))
   = headers :: map row offers)
  /\ (forall o, occurrences comma (offer_region o) > 0 ->
        length (split_on comma (join comma (row o))) > length headers).
Proof.
  split.
  - intros Hall. unfold OffersExport.csv. cbv zeta.
    rewrite split_join.
    + rewrite map_cons, map_map.
      rewrite (split_join comma headers) by (try discriminate; repeat constructor).
      f_equal.
      rewrite <- (map_id (map row offers)) at 2.
      apply map_ext_in. intros r [o [<- Ho]]%in_map_iff.
      apply split_join; [discriminate|].
      apply row_plain; [auto|].
      apply (proj1 (List.Forall_forall _ _) Hall o Ho).
    + discriminate.
    + constructor.
      * apply occurrences_join; [repeat constructor | discriminate].
      * rewrite !Forall_map. eapply Forall_impl; [exact Hall|].
        intros o [Hc Hn]. apply occurrences_join; [|discriminate].
        apply row_plain; auto.
  - intros o Hcomma. rewrite split_on_length, <- occurrences_join_ge.
    unfold OffersExport.row. simpl. lia.
Qed.

End Csv.

Lemma csv_reads_back_without_commas_witness :
  map (split_on comma)
    (split_on newline (csv (fun _ => "7") [SampleOffers.sampleRow 7 "Inne" VIP]))
  = [headers; ["7"; "7"; "7"; "Inne"; "7"; "7"; "7"; "VIP"]].
Proof.
  apply (csv_reads_back_without_commas (fun _ => "7")
           (fun _ => conj eq_refl eq_refl)
           [SampleOffers.sampleRow 7 "Inne" VIP]).
  repeat constructor.
Defined.

End ExportFacts.

(** ** The estimate and the state it is called in *)

Module AmbientFacts.
Import Calculator CalculatorFacts.

(** The standard [Object.prototype], key by key. *)
Lemma standard_prototype_lookup (key : string) :
  Ambient.Object_prototype Ambient.standard !! key =
    if bool_decide (key ∈ JsObject.Object_prototype)
    then Some (JsObject.Builtin key) else None.
Proof.
  case_bool_decide as Hin.
  - unfold JsObject.Object_prototype in Hin. set_unfold.
    repeat (destruct Hin as [-> | Hin]; [vm_compute; reflexivity|]).
    destruct Hin.
  - apply not_elem_of_list_to_map_1. exact Hin.
Qed.

(** With the standard built-ins the lookup is [JsObject.get], and the
    method is [Calculator.calculateLocalEstimate], whatever the component. *)
Lemma get_standard (own : gmap string Js.number) (key : string) :
  Ambient.get Ambient.standard own key = JsObject.get own key.
Proof.
  unfold Ambient.get, JsObject.get. rewrite standard_prototype_lookup.
  destruct (own !! key); [reflexivity|]. case_bool_decide; reflexivity.
Qed.

Lemma standard_estimate (values : FormValue) (c : Component) :
  let s := {| Ambient.this := c; Ambient.builtins := Ambient.standard |} in
  Ambient.calculateLocalEstimate values s = (calculateLocalEstimate values, s).
Proof.
  cbv zeta. unfold Ambient.calculateLocalEstimate, calculateLocalEstimate.
  cbn [Ambient.builtins]. rewrite get_standard. reflexivity.
Qed.








End AmbientFacts.
